(** * moneytrans: the ledger API routes and the account-statement component

    A shallow embedding of

    - [src/app/api/entries/route.ts]        (handlers [GET], [POST]),
    - [src/app/api/entries/[id]/route.ts]   (handlers [PUT], [DELETE]),
    - [src/components/account-statement.tsx] ([handleSearch],
      [exportToCSV], [shareViaWhatsApp]),

    together with the fragment of ECMAScript that these functions rely on
    (truthiness, numeric coercion, the [+], [-] and [||] operators, string
    methods).

    Conventions.
    - A JavaScript [number] is an IEEE 754 binary64 value: Rocq's primitive
      [float], whose operations are the same roundings.
    - A JavaScript string is a [string]: a sequence of UTF-16 code units,
      restricted here to the code units below 256.
    - A JavaScript value is a [jsval]: [undefined] or a JSON primitive.
      Nested documents and arrays do not occur as field values.
    - A JavaScript object used as a record of named fields (a request body,
      a MongoDB document) is a [gmap string jsval]; reading an absent
      property gives [undefined]. *)

From Stdlib Require Import ZArith Floats String Ascii List.
From stdpp Require Import base option list strings gmap fin_maps pretty.

Local Open Scope Z_scope.

(** ** ECMAScript values and built-in conversions *)

Module ES.

Inductive jsval : Type :=
  | VUndefined
  | VNull
  | VBoolean (b : bool)
  | VNumber (x : float)
  | VString (s : string).

Definition NaN : float := PrimFloat.nan.

(** [ToBoolean]: [undefined], [null], [false], [+0], [-0], [NaN] and the
    empty string are falsy, everything else is truthy. *)
Definition number_falsy (x : float) : bool :=
  PrimFloat.is_zero x || PrimFloat.is_nan x.

Definition ToBoolean (v : jsval) : bool :=
  match v with
  | VUndefined | VNull => false
  | VBoolean b => b
  | VNumber x => negb (number_falsy x)
  | VString s => negb (String.eqb s "")
  end.

(** *** Exact decimal/binary conversion *)

(** [m * 10^e10], rounded to the nearest binary64 (ties to even), with the
    sign [neg]. For a negative exponent the quotient is computed with more
    than 64 significant bits and a sticky bit, so that the single rounding
    done by [binary_normalize] is the correct one. Exponents so large or so
    small that the result is certainly infinite or zero are cut short. *)
Definition decimal_to_spec (neg : bool) (m e10 : Z) : spec_float :=
  if m <=? 0 then S754_zero neg
  else if 400 <? e10 then S754_infinity neg
  else if e10 + Z.log2 m <? -400 then S754_zero neg
  else
    let r :=
      if 0 <=? e10 then binary_normalize prec emax (m * 10 ^ e10) 0 false
      else
        let d := 10 ^ (- e10) in
        let s := Z.log2 d + 65 in
        let n := m * 2 ^ s in
        let q := n / d in
        let sticky := if n mod d =? 0 then 0 else 1 in
        binary_normalize prec emax (2 * q + sticky) (- s - 1) false in
    if neg then SFopp r else r.

Definition decimal_to_float (neg : bool) (m e10 : Z) : float :=
  SF2Prim (decimal_to_spec neg m e10).

(** *** [StringToNumber] (the [StringNumericLiteral] grammar) *)

Definition code (c : ascii) : Z := Z.of_nat (nat_of_ascii c).

(** White space and line terminators among the code units below 256:
    TAB, LF, VT, FF, CR, SP and NBSP. *)
Definition isWhiteSpace (c : ascii) : bool :=
  let n := code c in
  ((9 <=? n) && (n <=? 13)) || (n =? 32) || (n =? 160).

Definition digit_of (c : ascii) : option Z :=
  let n := code c in
  if (48 <=? n) && (n <=? 57) then Some (n - 48) else None.

Definition hexdigit_of (c : ascii) : option Z :=
  let n := code c in
  if (48 <=? n) && (n <=? 57) then Some (n - 48)
  else if (65 <=? n) && (n <=? 70) then Some (n - 55)
  else if (97 <=? n) && (n <=? 102) then Some (n - 87)
  else None.

Fixpoint trimStart (s : string) : string :=
  match s with
  | String c s' => if isWhiteSpace c then trimStart s' else s
  | EmptyString => EmptyString
  end.

Fixpoint trimEnd (s : string) : string :=
  match s with
  | String c s' =>
      match trimEnd s' with
      | EmptyString => if isWhiteSpace c then EmptyString else String c EmptyString
      | r => String c r
      end
  | EmptyString => EmptyString
  end.

Definition trim (s : string) : string := trimEnd (trimStart s).

(** Reads a maximal run of decimal digits: the digits read so far as a
    number, how many were read, and the rest of the input. *)
Fixpoint digits (acc : Z) (n : Z) (s : string) : Z * Z * string :=
  match s with
  | String c s' =>
      match digit_of c with
      | Some d => digits (10 * acc + d) (n + 1) s'
      | None => (acc, n, s)
      end
  | EmptyString => (acc, n, s)
  end.

(** A whole string of digits in the given radix (2, 8 or 16), at least one. *)
Fixpoint radix_digits (radix : Z) (acc : Z) (s : string) : option Z :=
  match s with
  | String c s' =>
      match hexdigit_of c with
      | Some d => if d <? radix then
                    match s' with
                    | EmptyString => Some (radix * acc + d)
                    | _ => radix_digits radix (radix * acc + d) s'
                    end
                  else None
      | None => None
      end
  | EmptyString => None
  end.

(** [ExponentPart]: [e] or [E], an optional sign, at least one digit, and
    then the end of the input. [None] when the input has another shape. *)
Definition exponent_part (s : string) : option Z :=
  match s with
  | EmptyString => Some 0
  | String c s' =>
      if (code c =? 101) || (code c =? 69) then
        let '(neg, s'') :=
          match s' with
          | String "+" t => (false, t)
          | String "-" t => (true, t)
          | _ => (false, s')
          end in
        match digits 0 0 s'' with
        | (e, n, EmptyString) =>
            if 0 <? n then Some (if neg then - e else e) else None
        | _ => None
        end
      else None
  end.

(** [StrUnsignedDecimalLiteral]. *)
Definition unsigned_decimal (neg : bool) (s : string) : float :=
  if String.eqb s "Infinity" then
    (if neg then PrimFloat.neg_infinity else PrimFloat.infinity)
  else
    let '(ip, ni, r1) := digits 0 0 s in
    let '(m, nf, r2) :=
      match r1 with
      | String "." t => digits ip 0 t
      | _ => (ip, 0, r1)
      end in
    if ni + nf =? 0 then NaN
    else
      match exponent_part r2 with
      | Some e => decimal_to_float neg m (e - nf)
      | None => NaN
      end.

Definition StringToNumber (str : string) : float :=
  match trim str with
  | EmptyString => PrimFloat.zero
  | String "+" s => unsigned_decimal false s
  | String "-" s => unsigned_decimal true s
  | String "0" (String c s) as t =>
      let n := code c in
      let radix :=
        if (n =? 120) || (n =? 88) then 16
        else if (n =? 111) || (n =? 79) then 8
        else if (n =? 98) || (n =? 66) then 2
        else 0 in
      if radix =? 0 then unsigned_decimal false t
      else
        match radix_digits radix 0 s with
        | Some m => decimal_to_float false m 0
        | None => NaN
        end
  | t => unsigned_decimal false t
  end.

(** *** [Number::toString] (radix 10) *)

(** The exact value of a positive finite float as a fraction. *)
Definition exact_fraction (m : positive) (e : Z) : Z * Z :=
  if 0 <=? e then (Z.pos m * 2 ^ e, 1) else (Z.pos m, 2 ^ (- e)).

(** [num/den] divided by [10^j], as a fraction. *)
Definition scale10 (num den j : Z) : Z * Z :=
  if 0 <=? j then (num, den * 10 ^ j) else (num * 10 ^ (- j), den).

(** The [n] with [10^(n-1) <= num/den < 10^n], searched upwards from a
    starting point below it. *)
Fixpoint decimal_exponent (fuel : nat) (num den n : Z) : Z :=
  match fuel with
  | O => n
  | S fuel' =>
      let '(a, b) := scale10 num den n in
      if a <? b then n else decimal_exponent fuel' num den (n + 1)
  end.

(** The [k]-digit candidates next to [num/den] at the scale [10^(n-k)]
    that read back as [x], the closer one first (the even one on a tie). *)
Definition candidates (x : float) (num den n k : Z) : list (Z * Z) :=
  let '(a, b) := scale10 num den (n - k) in
  let lo := a / b in
  let hi := lo + 1 in
  let back (s : Z) := PrimFloat.eqb (decimal_to_float false s (n - k)) x in
  let lo_ok := (10 ^ (k - 1) <=? lo) && back lo in
  let hi_ok := back hi in
  let hi_c := if hi =? 10 ^ k then (10 ^ (k - 1), n + 1) else (hi, n) in
  let dlo := a - lo * b in
  let dhi := hi * b - a in
  let lo_first := (dlo <? dhi) || ((dlo =? dhi) && Z.even lo) in
  match lo_ok, hi_ok with
  | true, true => if lo_first then [(lo, n); hi_c] else [hi_c; (lo, n)]
  | true, false => [(lo, n)]
  | false, true => [hi_c]
  | false, false => []
  end.

(** The shortest digit string [s] (with [k] digits) and exponent [n] such
    that [s * 10^(n-k)] reads back as [x]. *)
Fixpoint shortest (fuel : nat) (x : float) (num den n k : Z) : Z * Z * Z :=
  match fuel with
  | O => (0, n, k)
  | S fuel' =>
      match candidates x num den n k with
      | (s, n') :: _ => (s, n', k)
      | [] => shortest fuel' x num den n (k + 1)
      end
  end.

Fixpoint zeros (n : nat) : string :=
  match n with
  | O => EmptyString
  | S n' => String "0" (zeros n')
  end.

Fixpoint str_take (n : nat) (s : string) : string :=
  match n, s with
  | S n', String c s' => String c (str_take n' s')
  | _, _ => EmptyString
  end.

Fixpoint str_drop (n : nat) (s : string) : string :=
  match n, s with
  | S n', String _ s' => str_drop n' s'
  | _, _ => s
  end.

Definition format_digits (s n k : Z) : string :=
  let ds := pretty s in
  if (k <=? n) && (n <=? 21) then
    ds +:+ zeros (Z.to_nat (n - k))
  else if (0 <? n) && (n <=? 21) then
    str_take (Z.to_nat n) ds +:+ "." +:+ str_drop (Z.to_nat n) ds
  else if (-6 <? n) && (n <=? 0) then
    "0." +:+ zeros (Z.to_nat (- n)) +:+ ds
  else
    let e := n - 1 in
    let ex := (if e <? 0 then "-" else "+") +:+ pretty (Z.abs e) in
    if k =? 1 then ds +:+ "e" +:+ ex
    else str_take 1 ds +:+ "." +:+ str_drop 1 ds +:+ "e" +:+ ex.

Definition NumberToString (x : float) : string :=
  match Prim2SF x with
  | S754_nan => "NaN"
  | S754_zero _ => "0"
  | S754_infinity neg => if neg then "-Infinity" else "Infinity"
  | S754_finite neg m e =>
      let '(num, den) := exact_fraction m e in
      let est := (Z.log2 num - Z.log2 den) * 30103 / 100000 - 2 in
      let n := decimal_exponent 8 num den est in
      let '(s, n', k) := shortest 20 (PrimFloat.abs x) num den n 1 in
      (if neg then "-" else "") +:+ format_digits s n' k
  end.

(** *** Conversions and operators on values *)

Definition ToNumber (v : jsval) : float :=
  match v with
  | VUndefined => NaN
  | VNull => PrimFloat.zero
  | VBoolean b => if b then PrimFloat.one else PrimFloat.zero
  | VNumber x => x
  | VString s => StringToNumber s
  end.

Definition ToString (v : jsval) : string :=
  match v with
  | VUndefined => "undefined"
  | VNull => "null"
  | VBoolean b => if b then "true" else "false"
  | VNumber x => NumberToString x
  | VString s => s
  end.

(** [Number(v)]. *)
Definition Number (v : jsval) : float := ToNumber v.

(** [a + b]: concatenation as soon as one operand is a string, numeric
    addition otherwise. *)
Definition js_add (a b : jsval) : jsval :=
  match a, b with
  | VString _, _ | _, VString _ => VString (ToString a +:+ ToString b)
  | _, _ => VNumber (ToNumber a + ToNumber b)%float
  end.

(** [a - b]: always numeric. *)
Definition js_sub (a b : jsval) : float := (ToNumber a - ToNumber b)%float.

(** [a || b]. *)
Definition js_or (a b : jsval) : jsval := if ToBoolean a then a else b.

(** Reading a property of an object; an absent property is [undefined]. *)
Definition get (o : gmap string jsval) (k : string) : jsval :=
  default VUndefined (o !! k).

(** *** String methods *)

(** [String.prototype.toLowerCase] on the code units below 256: the
    letters A-Z and the accented capitals 192-222 (but not the
    multiplication sign 215) move up by 32. *)
Definition lower_char (c : ascii) : ascii :=
  let n := code c in
  if ((65 <=? n) && (n <=? 90))
     || ((192 <=? n) && (n <=? 222) && negb (n =? 215))
  then ascii_of_nat (Z.to_nat (n + 32)) else c.

Fixpoint toLowerCase (s : string) : string :=
  match s with
  | EmptyString => EmptyString
  | String c s' => String (lower_char c) (toLowerCase s')
  end.

Fixpoint startsWith (p s : string) : bool :=
  match p, s with
  | EmptyString, _ => true
  | String a p', String b s' => Ascii.eqb a b && startsWith p' s'
  | String _ _, EmptyString => false
  end.

(** [s.includes(q)]. *)
Fixpoint includes (s q : string) : bool :=
  startsWith q s ||
  match s with
  | EmptyString => false
  | String _ s' => includes s' q
  end.

(** The relational operators on two strings compare code units
    lexicographically. *)
Fixpoint str_compare (a b : string) : comparison :=
  match a, b with
  | EmptyString, EmptyString => Eq
  | EmptyString, String _ _ => Lt
  | String _ _, EmptyString => Gt
  | String x a', String y b' =>
      match code x ?= code y with
      | Eq => str_compare a' b'
      | c => c
      end
  end.

(** [a >= b] and [a <= b] on strings. *)
Definition str_ge (a b : string) : bool :=
  match str_compare a b with Lt => false | _ => true end.

Definition str_le (a b : string) : bool :=
  match str_compare a b with Gt => false | _ => true end.

(** *** Vocabulary of the statements *)

(** The values that a condition takes for false: [undefined], [null],
    [false], the empty string, a zero and [NaN]. *)
Definition falsy (v : jsval) : Prop :=
  v = VUndefined ∨ v = VNull ∨ v = VBoolean false ∨ v = VString ""
  ∨ ∃ x, v = VNumber x
         ∧ (PrimFloat.eqb x PrimFloat.zero = true ∨ PrimFloat.eqb x x = false).

(** [q] occurs in [s]. *)
Definition occurs_in (q s : string) : Prop :=
  ∃ before after, s = before +:+ q +:+ after.

End ES.

(** ** The API routes: [route.ts] and [[id]/route.ts] *)

Module Api.
Import ES.

(** A MongoDB [ObjectId], written as its 24 hexadecimal digits in lower
    case (what [toString] returns). *)
Definition ObjectId : Type := string.

(** The fields of a document or of a JavaScript object literal. *)
Abbreviation Fields := (gmap string jsval).

(** A document of the collection ["entries"] as [find] returns it. *)
Record Document : Type := { _id : ObjectId; fields : Fields }.

(** The collection ["entries"]: its documents by [_id]. *)
Abbreviation Collection := (gmap string (gmap string jsval)).

(** What a handler returns through [NextResponse.json]. *)
Inductive Payload : Type :=
  | Entries (es : list Fields)
  | Entry (e : Fields)
  | Message (message : string)
  | Error (error : string).

Record Response : Type := { status : Z; payload : Payload }.

(** The JSON body of a request: [request.json()] rejects when the text is
    not JSON; the JSON value [null] has no properties; every other JSON
    value is read through its properties (a number, a string, a boolean or
    an array has none of the six names read here: it is [JsonObject ∅]). *)
Inductive Body : Type :=
  | Malformed
  | JsonNull
  | JsonObject (o : Fields).

(** [await request.json()], then the destructuring of its result; [None]
    stands for a thrown exception. *)
Definition request_json (request : Body) : option Fields :=
  match request with
  | Malformed => None
  | JsonNull => None
  | JsonObject o => Some o
  end.

(** *** The driver *)

(** [new ObjectId(id)] throws unless [id] is 24 hexadecimal digits; the
    digits are case-insensitive. *)
Fixpoint all_hex (s : string) : bool :=
  match s with
  | EmptyString => true
  | String c s' => bool_decide (is_Some (hexdigit_of c)) && all_hex s'
  end.

Definition new_ObjectId (id : string) : option ObjectId :=
  if (String.length id =? 24)%nat && all_hex id
  then Some (toLowerCase id) else None.

(** The driver writes an [undefined] property as BSON null. *)
Definition bson (v : jsval) : jsval :=
  match v with
  | VUndefined => VNull
  | _ => v
  end.

(** [insertOne(doc)] with the identifier the driver generates for it; a
    duplicate key is an exception. *)
Definition insertOne (db : Collection) (insertedId : ObjectId) (doc : Fields)
  : option Collection :=
  match db !! insertedId with
  | Some _ => None
  | None => Some (<[insertedId := bson <$> doc]> db)
  end.

(** [updateOne({ _id }, { $set: data })]: the new collection and
    [matchedCount]. The fields of [data] replace those of the document,
    the others stay. *)
Definition updateOne (db : Collection) (oid : ObjectId) (data : Fields)
  : Collection * Z :=
  match db !! oid with
  | Some doc => (<[oid := (bson <$> data) ∪ doc]> db, 1)
  | None => (db, 0)
  end.

(** [deleteOne({ _id })]: the new collection and [deletedCount]. *)
Definition deleteOne (db : Collection) (oid : ObjectId) : Collection * Z :=
  match db !! oid with
  | Some _ => (delete oid db, 1)
  | None => (db, 0)
  end.

(** *** GET *)

(** The callback of [entries.map] with the captured [runningBalance]
    threaded through: the new [runningBalance] and the mapped entry. *)
Definition next_balance (runningBalance : float) (entry : Document) : float :=
  js_sub (js_add (VNumber runningBalance) (get (fields entry) "credit"))
         (get (fields entry) "debit").

Definition processed (entry : Document) (runningBalance : float) : Fields :=
  <["_id" := VUndefined]>
    (<["balance" := VNumber runningBalance]>
       (<["id" := VString (_id entry)]> (fields entry))).

Fixpoint processEntries (runningBalance : float) (entries : list Document)
  : list Fields :=
  match entries with
  | [] => []
  | entry :: rest =>
      let runningBalance := next_balance runningBalance entry in
      processed entry runningBalance :: processEntries runningBalance rest
  end.

(** [entries] is the array that
    [db.collection("entries").find({}).sort({ date: 1 }).toArray()]
    returned. *)
Definition GET (entries : list Document) : Response :=
  {| status := 200; payload := Entries (processEntries PrimFloat.zero entries) |}.

(** *** POST and PUT *)

(** The guard [!particulars || (!debit && !credit)]. *)
Definition missing_required (body : Fields) : bool :=
  negb (ToBoolean (get body "particulars"))
  || (negb (ToBoolean (get body "debit")) && negb (ToBoolean (get body "credit"))).

(** [Number(v) || 0]. *)
Definition number_or_0 (v : jsval) : jsval :=
  js_or (VNumber (Number v)) (VNumber PrimFloat.zero).

(** The object literal [newEntry]; [now] is the value of [new Date()]. *)
Definition newEntry (body : Fields) (now : jsval) : Fields :=
  list_to_map
    [ ("date", get body "date");
      ("particulars", get body "particulars");
      ("debitCountry", number_or_0 (get body "debitCountry"));
      ("debit", number_or_0 (get body "debit"));
      ("creditCountry", number_or_0 (get body "creditCountry"));
      ("credit", number_or_0 (get body "credit"));
      ("createdAt", now);
      ("updatedAt", now) ].

(** The object literal [updateData]. *)
Definition updateData (body : Fields) (now : jsval) : Fields :=
  list_to_map
    [ ("date", get body "date");
      ("particulars", get body "particulars");
      ("debitCountry", number_or_0 (get body "debitCountry"));
      ("debit", number_or_0 (get body "debit"));
      ("creditCountry", number_or_0 (get body "creditCountry"));
      ("credit", number_or_0 (get body "credit"));
      ("updatedAt", now) ].

Definition respond (st : Z) (p : Payload) : Response :=
  {| status := st; payload := p |}.

(** Each handler is a [try] block, in which [None] is a thrown exception,
    and a [catch] that answers 500 and leaves the collection as it was. *)
Definition POST (db : Collection) (request : Body) (now : jsval)
    (insertedId : ObjectId) : Response * Collection :=
  default (respond 500 (Error "Failed to create entry"), db)
    (body ← request_json request;
     if missing_required body then
       Some (respond 400 (Error "Missing required fields"), db)
     else
       let doc := newEntry body now in
       db' ← insertOne db insertedId doc;
       Some (respond 201
               (Entry (<["_id" := VUndefined]>
                         (<["id" := VString insertedId]> doc))),
             db')).

Definition PUT (db : Collection) (id : string) (request : Body) (now : jsval)
  : Response * Collection :=
  default (respond 500 (Error "Failed to update entry"), db)
    (body ← request_json request;
     if missing_required body then
       Some (respond 400 (Error "Missing required fields"), db)
     else
       let data := updateData body now in
       oid ← new_ObjectId id;
       let '(db', matchedCount) := updateOne db oid data in
       if matchedCount =? 0 then
         Some (respond 404 (Error "Entry not found"), db')
       else
         Some (respond 200 (Message "Entry updated successfully"), db')).

(** *** DELETE *)

Definition DELETE (db : Collection) (id : string) : Response * Collection :=
  default (respond 500 (Error "Failed to delete entry"), db)
    (oid ← new_ObjectId id;
     let '(db', deletedCount) := deleteOne db oid in
     if deletedCount =? 0 then
       Some (respond 404 (Error "Entry not found"), db')
     else
       Some (respond 200 (Message "Entry deleted successfully"), db')).

(** *** Vocabulary of the statements about the routes *)

Definition is_number (v : jsval) : bool :=
  match v with
  | VNumber _ => true
  | _ => false
  end.

(** An entry as [interface AccountEntry] types it: [credit] and [debit]
    are numbers. *)
Definition numeric_amounts (entry : Document) : bool :=
  is_number (get (fields entry) "credit")
  && is_number (get (fields entry) "debit").

Definition credit_of (entry : Document) : float :=
  ToNumber (get (fields entry) "credit").

Definition debit_of (entry : Document) : float :=
  ToNumber (get (fields entry) "debit").

(** The left fold of [credit - debit], seeded at 0. *)
Definition sum_credit_minus_debit (entries : list Document) : float :=
  fold_left (fun acc entry => (acc + (credit_of entry - debit_of entry))%float)
            entries PrimFloat.zero.

(** The same fold with each step evaluated as the code writes it,
    [acc + credit - debit], that is [(acc + credit) - debit]. On binary64
    numbers the two roundings of a step can differ in the last bits when an
    entry has both a credit and a debit. *)
Definition running_balance (entries : list Document) : float :=
  fold_left (fun acc entry => (acc + credit_of entry - debit_of entry)%float)
            entries PrimFloat.zero.

(** An entry that carries a debit or a credit, not both: the other amount
    is the 0 that POST and PUT write for an amount that was not given. *)
Definition is_zero_amount (x : float) : bool :=
  PrimFloat.Leibniz.eqb x PrimFloat.zero.

Definition one_sided (entry : Document) : bool :=
  is_zero_amount (credit_of entry) || is_zero_amount (debit_of entry).

(** Every document of the collection has numeric amounts. *)
Definition numeric_collection (db : Collection) : Prop :=
  ∀ oid doc, db !! oid = Some doc →
    numeric_amounts {| _id := oid; fields := doc |} = true.

(** The [balance] of the entry at position [i] of a response. *)
Definition balance_at (r : Response) (i : nat) : option jsval :=
  match payload r with
  | Entries es => es !! i ≫= (fun e : Fields => e !! "balance")
  | _ => None
  end.

(** An amount that is missing from the document or [undefined]. *)
Definition missing_amount (entry : Document) : Prop :=
  get (fields entry) "credit" = VUndefined
  ∨ get (fields entry) "debit" = VUndefined.

(** The same entry with 0 in the place of a missing [credit] or [debit]. *)
Definition zero_if_missing (k : string) (o : Fields) : Fields :=
  match get o k with
  | VUndefined => <[k := VNumber PrimFloat.zero]> o
  | _ => o
  end.

Definition zero_missing (entry : Document) : Document :=
  {| _id := _id entry;
     fields := zero_if_missing "debit" (zero_if_missing "credit" (fields entry)) |}.

(** What the rejected requests have in common: no [particulars], or
    neither a [debit] nor a [credit]. *)
Definition lacks_required (body : Fields) : Prop :=
  falsy (get body "particulars")
  ∨ (falsy (get body "debit") ∧ falsy (get body "credit")).

(** No document of the collection has a [balance] field. *)
Definition no_balance (db : Collection) : Prop :=
  ∀ oid doc, db !! oid = Some doc → doc !! "balance" = None.

(** The same entry with a stored [balance]. *)
Definition with_balance (v : jsval) (entry : Document) : Document :=
  {| _id := _id entry; fields := <["balance" := v]> (fields entry) |}.

(** *** The scenario of the specification *)

Definition alice : Document :=
  {| _id := "65a000000000000000000001";
     fields := {[ "date" := VString "2024-01-01";
                  "particulars" := VString "Alice";
                  "credit" := VNumber 100%float;
                  "debit" := VNumber 0%float ]} |}.

Definition bob : Document :=
  {| _id := "65a000000000000000000002";
     fields := {[ "date" := VString "2024-01-02";
                  "particulars" := VString "Bob";
                  "credit" := VNumber 0%float;
                  "debit" := VNumber 40%float ]} |}.

(** An entry without [debit]. *)
Definition carol : Document :=
  {| _id := "65a000000000000000000003";
     fields := {[ "date" := VString "2024-01-03";
                  "particulars" := VString "Carol";
                  "credit" := VNumber 10%float ]} |}.

(** Decimal amounts: a credit of 0.1, then an entry with a credit of 0.2
    and a debit of 0.3. *)
Definition erin : Document :=
  {| _id := "65a000000000000000000005";
     fields := {[ "date" := VString "2024-01-01";
                  "particulars" := VString "Erin";
                  "credit" := VNumber (StringToNumber "0.1");
                  "debit" := VNumber PrimFloat.zero ]} |}.

Definition frank : Document :=
  {| _id := "65a000000000000000000006";
     fields := {[ "date" := VString "2024-01-02";
                  "particulars" := VString "Frank";
                  "credit" := VNumber (StringToNumber "0.2");
                  "debit" := VNumber (StringToNumber "0.3") ]} |}.

(** What the entry form sends when 0 is typed in both amount inputs. *)
Definition zero_amounts_body : Fields :=
  {[ "date" := VString "2024-01-04";
     "particulars" := VString "Dave";
     "debitCountry" := VString "";
     "debit" := VString "0";
     "creditCountry" := VString "";
     "credit" := VString "0" ]}.

Definition dave_id : ObjectId := "65a000000000000000000004".

(** A body that the guard rejects. *)
Definition empty_particulars_body : Fields :=
  {[ "date" := VString "2024-01-04";
     "particulars" := VString "";
     "debit" := VString "5";
     "credit" := VString "" ]}.

Definition valid_body : Fields :=
  {[ "date" := VString "2024-01-04";
     "particulars" := VString "Dave";
     "debit" := VString "5";
     "credit" := VString "" ]}.

(** The value of [new Date()] in the scenario. *)
Definition today : jsval := VString "2024-01-04T09:30:00.000Z".

(** A well-formed identifier that no entry has. *)
Definition unknown_id : string := "65a0000000000000000000ff".

Definition ledger : Collection :=
  {[ _id alice := fields alice; _id bob := fields bob ]}.

End Api.

(** ** The statement component: [account-statement.tsx] *)

Module Statement.
Import ES.

(** [interface AccountEntry]. The entries come from the JSON of the GET
    route, so a numeric field holds whatever value that JSON carried. *)
Record AccountEntry : Type := {
  id : string;
  date : string;
  particulars : string;
  debitCountry : jsval;
  debit : jsval;
  creditCountry : jsval;
  credit : jsval;
  balance : jsval
}.

(** The state [exportFilters]. *)
Record ExportFilters : Type := {
  filter_particulars : string;
  startDate : string;
  endDate : string
}.

(** The part of the component state that searching and exporting use. *)
Record State : Type := {
  entries : list AccountEntry;
  exportFilters : ExportFilters;
  filteredEntries : list AccountEntry
}.

(** A string in a condition: [if (s)]. *)
Definition truthy (s : string) : bool := ToBoolean (VString s).

Definition handleSearch (st : State) : State :=
  let f := exportFilters st in
  let filtered := entries st in
  let filtered :=
    if truthy (filter_particulars f) then
      List.filter
        (fun entry =>
           includes (toLowerCase (particulars entry))
                    (toLowerCase (filter_particulars f)))
        filtered
    else filtered in
  let filtered :=
    if truthy (startDate f) then
      List.filter (fun entry => str_ge (date entry) (startDate f)) filtered
    else filtered in
  let filtered :=
    if truthy (endDate f) then
      List.filter (fun entry => str_le (date entry) (endDate f)) filtered
    else filtered in
  {| entries := entries st;
     exportFilters := exportFilters st;
     filteredEntries := filtered |}.

(** [Array.prototype.join]: [undefined] and [null] elements give the empty
    string, the others their [ToString]. *)
Definition join_element (v : jsval) : string :=
  match v with
  | VUndefined | VNull => ""
  | _ => ToString v
  end.

Fixpoint join (sep : string) (row : list jsval) : string :=
  match row with
  | [] => ""
  | [v] => join_element v
  | v :: rest => join_element v +:+ sep +:+ join sep rest
  end.

Definition newline : string := String (ascii_of_nat 10) EmptyString.

Definition csv_header : list jsval :=
  [ VString "Date"; VString "Particulars"; VString "Debit Country";
    VString "Debit (Out)"; VString "Credit Country"; VString "Credit (In)";
    VString "Balance" ].

(** The array built for one entry. *)
Definition csv_row (entry : AccountEntry) : list jsval :=
  [ VString (date entry);
    VString (particulars entry);
    js_or (debitCountry entry) (VString "-");
    js_or (debit entry) (VString "-");
    js_or (creditCountry entry) (VString "-");
    js_or (credit entry) (VString "-");
    balance entry ].

Definition csvContent (dataToExport : list AccountEntry) : string :=
  join newline
    (map (fun row => VString (join "," row))
         (csv_header :: map csv_row dataToExport)).

(** [filteredEntries.length > 0 ? filteredEntries : entries]. *)
Definition dataToExport (st : State) : list AccountEntry :=
  if (0 <? length (filteredEntries st))%nat then filteredEntries st
  else entries st.

(** The text that [exportToCSV] puts in the downloaded file. *)
Definition exportToCSV (st : State) : string := csvContent (dataToExport st).

(** What the callback of [forEach] appends to [message] for one entry. *)
Definition share_line (entry : AccountEntry) : string :=
  (date entry +:+ " | " +:+ particulars entry +:+ " | ")
  +:+ ("Debit Country: " +:+ ToString (js_or (debitCountry entry) (VString "-"))
       +:+ " | Debit: " +:+ ToString (js_or (debit entry) (VString "-"))
       +:+ " | ")
  +:+ ("Credit Country: " +:+ ToString (js_or (creditCountry entry) (VString "-"))
       +:+ " | Credit: " +:+ ToString (js_or (credit entry) (VString "-"))
       +:+ " | ")
  +:+ ("Balance: " +:+ ToString (balance entry) +:+ newline).

Definition shareMessage (dataToShare : list AccountEntry) : string :=
  fold_left (fun message entry => message +:+ share_line entry) dataToShare
            ("Account Statement:" +:+ newline +:+ newline).

(** The message that [shareViaWhatsApp] hands to the share URL. *)
Definition shareViaWhatsApp (st : State) : string :=
  shareMessage (dataToExport st).

(** *** Vocabulary of the statements about the component *)

(** The three criteria of a filter; a criterion whose input is empty is
    absent, and an absent criterion is satisfied. *)
Definition text_criterion (f : ExportFilters) (entry : AccountEntry) : bool :=
  if String.eqb (filter_particulars f) "" then true
  else includes (toLowerCase (particulars entry))
                (toLowerCase (filter_particulars f)).

Definition start_criterion (f : ExportFilters) (entry : AccountEntry) : bool :=
  if String.eqb (startDate f) "" then true
  else str_ge (date entry) (startDate f).

Definition end_criterion (f : ExportFilters) (entry : AccountEntry) : bool :=
  if String.eqb (endDate f) "" then true
  else str_le (date entry) (endDate f).

Definition satisfies (f : ExportFilters) (entry : AccountEntry) : bool :=
  text_criterion f entry && start_criterion f entry && end_criterion f entry.

(** An amount as the statement shows it: the placeholder for a falsy
    amount, the amount itself otherwise. *)
Definition amount_cell (v : jsval) : string :=
  if ToBoolean v then ToString v else "-".

Definition csv_header_line : string :=
  "Date,Particulars,Debit Country,Debit (Out),Credit Country,Credit (In),Balance".

(** The record of one entry in the CSV text. *)
Definition csv_line (entry : AccountEntry) : string :=
  String.concat ","
    [ date entry; particulars entry;
      amount_cell (debitCountry entry); amount_cell (debit entry);
      amount_cell (creditCountry entry); amount_cell (credit entry);
      join_element (balance entry) ].

(** The line of one entry in the shared text. *)
Definition share_text_line (entry : AccountEntry) : string :=
  date entry +:+ " | " +:+ particulars entry
  +:+ " | Debit Country: " +:+ amount_cell (debitCountry entry)
  +:+ " | Debit: " +:+ amount_cell (debit entry)
  +:+ " | Credit Country: " +:+ amount_cell (creditCountry entry)
  +:+ " | Credit: " +:+ amount_cell (credit entry)
  +:+ " | Balance: " +:+ ToString (balance entry) +:+ newline.

Definition share_title : string := "Account Statement:" +:+ newline +:+ newline.

(** *** The scenario of the specification, as the component holds it *)

Definition alice : AccountEntry :=
  {| id := "65a000000000000000000001"; date := "2024-01-01";
     particulars := "Alice";
     debitCountry := VNumber 0%float; debit := VNumber 0%float;
     creditCountry := VNumber 0%float; credit := VNumber 100%float;
     balance := VNumber 100%float |}.

Definition bob : AccountEntry :=
  {| id := "65a000000000000000000002"; date := "2024-01-02";
     particulars := "Bob";
     debitCountry := VNumber 0%float; debit := VNumber 40%float;
     creditCountry := VNumber 0%float; credit := VNumber 0%float;
     balance := VNumber 60%float |}.

Definition no_filters : ExportFilters :=
  {| filter_particulars := ""; startDate := ""; endDate := "" |}.

(** The statement before any search. *)
Definition loaded : State :=
  {| entries := [alice; bob]; exportFilters := no_filters; filteredEntries := [] |}.

(** A query of one space. *)
Definition blank_query : State :=
  {| entries := [alice; bob];
     exportFilters := {| filter_particulars := " "; startDate := ""; endDate := "" |};
     filteredEntries := [] |}.

(** A query that no entry matches. *)
Definition no_match_query : State :=
  {| entries := [alice; bob];
     exportFilters := {| filter_particulars := "carol"; startDate := ""; endDate := "" |};
     filteredEntries := [alice] |}.

End Statement.

(** ** Sequences of requests to the routes *)

Module Journal.
Import ES Api.

(** A request to one of the three mutating routes, with what the server
    reads from its environment while serving it. *)
Inductive Request : Type :=
  | Post (request : Body) (now : jsval) (insertedId : ObjectId)
  | Put (id : string) (request : Body) (now : jsval)
  | Delete (id : string).

Definition serve (db : Collection) (r : Request) : Response * Collection :=
  match r with
  | Post request now insertedId => POST db request now insertedId
  | Put id request now => PUT db id request now
  | Delete id => DELETE db id
  end.

(** The collection after a sequence of requests. *)
Definition replay (db : Collection) (rs : list Request) : Collection :=
  fold_left (fun db r => (serve db r).2) rs db.

(** [response.ok]: a status from 200 to 299. *)
Definition ok (r : Response) : bool := (200 <=? status r) && (status r <=? 299).

(** The four amount fields. *)
Definition amount_fields : list string :=
  ["debitCountry"; "debit"; "creditCountry"; "credit"].

(** The eight fields of an entry that the routes have written. *)
Definition entry_fields : gset string :=
  {[ "date"; "particulars"; "debitCountry"; "debit"; "creditCountry";
     "credit"; "createdAt"; "updatedAt" ]}.

(** An amount as the routes write it: a number that is neither [NaN] nor
    the negative zero. *)
Definition written_amount (v : jsval) : Prop :=
  ∃ x, v = VNumber x ∧ PrimFloat.is_nan x = false
       ∧ (number_falsy x = true → x = PrimFloat.zero).

Definition well_formed_entry (doc : Fields) : Prop :=
  dom doc = entry_fields
  ∧ ToBoolean (get doc "particulars") = true
  ∧ ∀ k, k ∈ amount_fields → written_amount (get doc k).

Definition well_formed_collection (db : Collection) : Prop :=
  ∀ oid doc, db !! oid = Some doc → well_formed_entry doc.

End Journal.

(** ** The entry form and the handlers of [account-statement.tsx] *)

Module Page.
Import ES Statement.

(** The state [formData]: the text of the six inputs. *)
Record FormData : Type := {
  form_date : string;
  form_particulars : string;
  form_debitCountry : string;
  form_debit : string;
  form_creditCountry : string;
  form_credit : string
}.

(** [type ViewMode]. *)
Inductive ViewMode : Type := ViewStatement | ViewAdd | ViewEdit | ViewExport.

Record Toast : Type := { title : string; description : string; destructive : bool }.

(** The state of the component: the three lists of [Statement.State] and
    the other [useState] cells. *)
Record Page : Type := {
  lists : State;
  loading : bool;
  saving : bool;
  currentView : ViewMode;
  editingEntry : option AccountEntry;
  formData : FormData
}.

(** The form that [resetFormData] sets; [today] is
    [new Date().toISOString().split("T")[0]]. *)
Definition blank_form (today : string) : FormData :=
  {| form_date := today; form_particulars := ""; form_debitCountry := "";
     form_debit := ""; form_creditCountry := ""; form_credit := "" |}.

Definition resetFormData (today : string) (p : Page) : Page :=
  {| lists := lists p; loading := loading p; saving := saving p;
     currentView := currentView p; editingEntry := editingEntry p;
     formData := blank_form today |}.

(** [v.toString()]: a [TypeError] ([None]) on [undefined] and [null]. *)
Definition toString_method (v : jsval) : option string :=
  match v with
  | VUndefined | VNull => None
  | _ => Some (ToString v)
  end.

(** [startEdit]; [None] when one of the four [toString] calls throws. *)
Definition startEdit (p : Page) (entry : AccountEntry) : option Page :=
  dc ← toString_method (debitCountry entry);
  d ← toString_method (debit entry);
  cc ← toString_method (creditCountry entry);
  c ← toString_method (credit entry);
  Some {| lists := lists p; loading := loading p; saving := saving p;
          currentView := ViewEdit;
          editingEntry := Some entry;
          formData := {| form_date := date entry;
                         form_particulars := particulars entry;
                         form_debitCountry := dc; form_debit := d;
                         form_creditCountry := cc; form_credit := c |} |}.

(** The guard of the two save handlers:
    [!formData.particulars || (!formData.debit && !formData.credit)]. *)
Definition missing_fields (f : FormData) : bool :=
  negb (truthy (form_particulars f))
  || (negb (truthy (form_debit f)) && negb (truthy (form_credit f))).

(** [JSON.stringify(formData)] as the route reads it back. *)
Definition form_request (f : FormData) : Api.Body :=
  Api.JsonObject
    (list_to_map
       [ ("date", VString (form_date f));
         ("particulars", VString (form_particulars f));
         ("debitCountry", VString (form_debitCountry f));
         ("debit", VString (form_debit f));
         ("creditCountry", VString (form_creditCountry f));
         ("credit", VString (form_credit f)) ]).

Definition validation_toast : Toast :=
  {| title := "Validation Error";
     description := "Please fill in particulars and at least one amount field";
     destructive := true |}.

Definition success_toast (d : string) : Toast :=
  {| title := "Success"; description := d; destructive := false |}.

Definition error_toast (d : string) : Toast :=
  {| title := "Error"; description := d; destructive := true |}.

Definition set_entries (data : list AccountEntry) (st : State) : State :=
  {| entries := data; exportFilters := exportFilters st;
     filteredEntries := filteredEntries st |}.

(** [fetchEntries]; [fetched] is the decoded answer of the GET route, or
    [None] when the request failed, was not answered 2xx, or its body was
    not JSON. *)
Definition fetchEntries (p : Page) (fetched : option (list AccountEntry))
  : Page * list Toast :=
  match fetched with
  | Some data =>
      ({| lists := set_entries data (lists p); loading := false;
          saving := saving p; currentView := currentView p;
          editingEntry := editingEntry p; formData := formData p |}, [])
  | None =>
      ({| lists := lists p; loading := false;
          saving := saving p; currentView := currentView p;
          editingEntry := editingEntry p; formData := formData p |},
       [error_toast "Failed to fetch entries from database"])
  end.

Definition set_saving (b : bool) (p : Page) : Page :=
  {| lists := lists p; loading := loading p; saving := b;
     currentView := currentView p; editingEntry := editingEntry p;
     formData := formData p |}.

(** What follows a successful save in both handlers: the form is reset,
    no entry is being edited, the statement is shown. *)
Definition back_to_statement (today : string) (p : Page) : Page :=
  {| lists := lists p; loading := loading p; saving := saving p;
     currentView := ViewStatement; editingEntry := None;
     formData := blank_form today |}.

(** How a [fetch] ends: the request does not reach the server and [fetch]
    rejects; the server serves the request but its answer is lost and
    [fetch] rejects; or the answer arrives. *)
Inductive Network : Type := Unreachable | AnswerLost | Answered.

(** [handleAddEntry], run against the collection [db] of the server. *)
Definition handleAddEntry (p : Page) (db : Api.Collection) (net : Network)
    (now : jsval) (insertedId : Api.ObjectId) (today : string)
    (fetched : option (list AccountEntry))
  : Page * Api.Collection * list Toast :=
  if missing_fields (formData p) then (p, db, [validation_toast])
  else
    match net with
    | Unreachable =>
        (set_saving false p, db, [error_toast "Failed to add entry"])
    | AnswerLost =>
        (set_saving false p,
         (Api.POST db (form_request (formData p)) now insertedId).2,
         [error_toast "Failed to add entry"])
    | Answered =>
        let '(response, db') :=
          Api.POST db (form_request (formData p)) now insertedId in
        if Journal.ok response then
          let '(p', toasts) := fetchEntries (back_to_statement today p) fetched in
          (set_saving false p', db',
           success_toast "Entry added successfully" :: toasts)
        else
          (set_saving false p, db', [error_toast "Failed to add entry"])
    end.

(** [handleEditEntry]. *)
Definition handleEditEntry (p : Page) (db : Api.Collection) (net : Network)
    (now : jsval) (today : string) (fetched : option (list AccountEntry))
  : Page * Api.Collection * list Toast :=
  match editingEntry p with
  | None => (p, db, [validation_toast])
  | Some entry =>
      if missing_fields (formData p) then (p, db, [validation_toast])
      else
        match net with
        | Unreachable =>
            (set_saving false p, db, [error_toast "Failed to update entry"])
        | AnswerLost =>
            (set_saving false p,
             (Api.PUT db (id entry) (form_request (formData p)) now).2,
             [error_toast "Failed to update entry"])
        | Answered =>
            let '(response, db') :=
              Api.PUT db (id entry) (form_request (formData p)) now in
            if Journal.ok response then
              let '(p', toasts) :=
                fetchEntries (back_to_statement today p) fetched in
              (set_saving false p', db',
               success_toast "Entry updated successfully" :: toasts)
            else
              (set_saving false p, db', [error_toast "Failed to update entry"])
        end
  end.

(** [handleDeleteEntry]; [confirmed] is the answer to [confirm]. *)
Definition handleDeleteEntry (p : Page) (db : Api.Collection)
    (confirmed : bool) (net : Network) (id : string)
    (fetched : option (list AccountEntry))
  : Page * Api.Collection * list Toast :=
  if negb confirmed then (p, db, [])
  else
    match net with
    | Unreachable => (p, db, [error_toast "Failed to delete entry"])
    | AnswerLost =>
        (p, (Api.DELETE db id).2, [error_toast "Failed to delete entry"])
    | Answered =>
        let '(response, db') := Api.DELETE db id in
        if Journal.ok response then
          let '(p', toasts) := fetchEntries p fetched in
          (p', db', success_toast "Entry deleted successfully" :: toasts)
        else (p, db', [error_toast "Failed to delete entry"])
    end.

(** *** Scenario *)

Definition dave_form : FormData :=
  {| form_date := "2024-01-04"; form_particulars := "Dave";
     form_debitCountry := ""; form_debit := "5";
     form_creditCountry := ""; form_credit := "" |}.

Definition adding : Page :=
  {| lists := loaded; loading := false; saving := false;
     currentView := ViewAdd; editingEntry := None; formData := dave_form |}.

Definition browsing : Page :=
  {| lists := loaded; loading := false; saving := false;
     currentView := ViewStatement; editingEntry := None;
     formData := blank_form "2024-01-04" |}.

End Page.

(** ** Facts about the ECMAScript fragment *)

Module ESFacts.
Import ES.

Lemma add_nan_r x : (x + NaN)%float = NaN.
Proof.
  rewrite <- (SF2Prim_Prim2SF (x + NaN)), add_spec.
  destruct (Prim2SF x); reflexivity.
Qed.

Lemma add_nan_l x : (NaN + x)%float = NaN.
Proof.
  rewrite <- (SF2Prim_Prim2SF (NaN + x)), add_spec.
  destruct (Prim2SF x); reflexivity.
Qed.

Lemma sub_nan_r x : (x - NaN)%float = NaN.
Proof.
  rewrite <- (SF2Prim_Prim2SF (x - NaN)), sub_spec.
  destruct (Prim2SF x); reflexivity.
Qed.

Lemma sub_nan_l x : (NaN - x)%float = NaN.
Proof.
  rewrite <- (SF2Prim_Prim2SF (NaN - x)), sub_spec.
  destruct (Prim2SF x); reflexivity.
Qed.

Lemma float_eq_spec (x y : float) : Prim2SF x = Prim2SF y → x = y.
Proof.
  intros H. by rewrite <- (SF2Prim_Prim2SF x), <- (SF2Prim_Prim2SF y), H.
Qed.

Lemma sub_zero_r (x : float) : (x - 0)%float = x.
Proof.
  apply float_eq_spec. rewrite sub_spec.
  change (Prim2SF 0) with (S754_zero false).
  destruct (Prim2SF x) as [[]| [] | |]; reflexivity.
Qed.

(** With a credit of 0 or a debit of 0 the two ways of bracketing a step
    round alike. *)
Lemma step_credit_zero (a d : float) : (a + 0 - d)%float = (a + (0 - d))%float.
Proof.
  apply float_eq_spec. rewrite !sub_spec, !add_spec, !sub_spec.
  change (Prim2SF 0) with (S754_zero false).
  destruct (Prim2SF a) as [[]| [] | |[] ma ea],
           (Prim2SF d) as [[]| [] | |[] md ed]; reflexivity.
Qed.

Lemma step_debit_zero (a c : float) : (a + c - 0)%float = (a + (c - 0))%float.
Proof. by rewrite !sub_zero_r. Qed.

Lemma trimEnd_keeps_head c s :
  isWhiteSpace c = false → ∃ r, trimEnd (String c s) = String c r.
Proof.
  intros Hc. simpl. destruct (trimEnd s); rewrite ?Hc; eauto.
Qed.

(** No numeric literal starts with the letter N. *)
Lemma StringToNumber_NaN_prefix s : StringToNumber ("NaN" +:+ s) = NaN.
Proof.
  unfold StringToNumber, trim.
  change ("NaN" +:+ s) with (String "N" ("aN" +:+ s)).
  cbn [trimStart]. change (isWhiteSpace "N") with false. cbv iota.
  destruct (trimEnd_keeps_head "N" ("aN" +:+ s) eq_refl) as [r ->].
  reflexivity.
Qed.

(** Once [NaN], always [NaN], whatever is added and subtracted. *)
Lemma sub_add_NaN (c d : jsval) : js_sub (js_add (VNumber NaN) c) d = NaN.
Proof.
  unfold js_sub.
  destruct c as [| |b|x|s]; cbn [js_add ToNumber ToString].
  - apply sub_nan_l.
  - apply sub_nan_l.
  - destruct b; apply sub_nan_l.
  - rewrite add_nan_l. apply sub_nan_l.
  - change (NumberToString NaN) with "NaN".
    rewrite StringToNumber_NaN_prefix. apply sub_nan_l.
Qed.

(** [ToBoolean] is false on exactly the falsy values. *)
Lemma ToBoolean_false (v : jsval) : ToBoolean v = false ↔ falsy v.
Proof.
  unfold falsy. destruct v as [| |b|x|s]; cbn [ToBoolean].
  - split; [by left | done].
  - split; [by right; left | done].
  - destruct b; split; try done.
    + intros [H|[H|[H|[H|(y & H & _)]]]]; discriminate.
    + by intros _; right; right; left.
  - unfold number_falsy, PrimFloat.is_zero, PrimFloat.is_nan.
    rewrite negb_false_iff, orb_true_iff, negb_true_iff.
    split.
    + intros H. do 4 right. eauto.
    + intros [H|[H|[H|[H|(y & [= <-] & H)]]]]; try discriminate. exact H.
  - rewrite negb_false_iff, String.eqb_eq. split.
    + intros ->. by right; right; right; left.
    + intros [H|[H|[H|[H|(y & H & _)]]]]; try discriminate. by injection H.
Qed.

(** *** Strings *)

Lemma append_cons c (s t : string) : String c s +:+ t = String c (s +:+ t).
Proof. reflexivity. Qed.

Lemma append_nil_l (t : string) : "" +:+ t = t.
Proof. reflexivity. Qed.

Lemma append_nil_r s : s +:+ "" = s.
Proof.
  induction s as [|c s IH]; [done |].
  by rewrite append_cons, IH.
Qed.

Lemma append_assoc (a b c : string) : (a +:+ b) +:+ c = a +:+ (b +:+ c).
Proof.
  induction a as [|x a IH]; [done |].
  by rewrite !append_cons, IH.
Qed.

Lemma startsWith_prefix p s :
  startsWith p s = true ↔ ∃ after, s = p +:+ after.
Proof.
  revert s. induction p as [|a p IH]; intros s; cbn [startsWith].
  - split; [intros _; by exists s | done].
  - destruct s as [|b s].
    + split; [done | intros [after H]; discriminate H].
    + rewrite andb_true_iff, Ascii.eqb_eq, IH. split.
      * intros [-> [after ->]]. by exists after.
      * intros [after H]. rewrite append_cons in H. injection H as -> ->.
        split; [done | by exists after].
Qed.

Lemma startsWith_append p s : startsWith p (p +:+ s) = true.
Proof. apply startsWith_prefix. by exists s. Qed.

(** [includes] decides occurrence. *)
Lemma includes_occurs_in s q : includes s q = true ↔ occurs_in q s.
Proof.
  unfold occurs_in. induction s as [|c s IH].
  - cbn [includes]. rewrite orb_false_r, startsWith_prefix. split.
    + intros [after ->]. by exists "", after.
    + intros (before & after & H). destruct before; [by exists after |].
      discriminate H.
  - cbn [includes]. rewrite orb_true_iff, startsWith_prefix, IH. split.
    + intros [[after ->] | (before & after & ->)].
      * by exists "", after.
      * by exists (String c before), after.
    + intros (before & after & H). destruct before as [|b before].
      * left. by exists after.
      * right. rewrite append_cons in H. injection H as -> ->.
        by exists before, after.
Qed.

End ESFacts.

(** ** The routes *)

Module ApiFacts.
Import ES Api ESFacts.

(** *** The running balance *)

Lemma processEntries_length entries :
  ∀ rb, length (processEntries rb entries) = length entries.
Proof. induction entries as [|e es IH]; intros rb; simpl; [done | by rewrite IH]. Qed.

(** The entry at position [i] carries the fold of [next_balance] over the
    entries up to and including [i]. *)
Lemma processEntries_lookup entries :
  ∀ rb i e, entries !! i = Some e →
    processEntries rb entries !! i
    = Some (processed e (fold_left next_balance (take (S i) entries) rb)).
Proof.
  induction entries as [|e0 es IH]; intros rb i e Hi; [done |].
  destruct i as [|i]; simpl in *.
  - by simplify_eq.
  - by rewrite (IH _ _ _ Hi).
Qed.

Lemma processed_balance e rb : processed e rb !! "balance" = Some (VNumber rb).
Proof. unfold processed. by simplify_map_eq. Qed.

Lemma balance_at_GET entries i e :
  entries !! i = Some e →
  balance_at (GET entries) i
  = Some (VNumber (fold_left next_balance (take (S i) entries) PrimFloat.zero)).
Proof.
  intros Hi. unfold balance_at, GET. cbn [payload].
  rewrite (processEntries_lookup _ _ _ _ Hi). simpl.
  apply processed_balance.
Qed.

Lemma next_balance_numeric rb e :
  numeric_amounts e = true →
  next_balance rb e = (rb + credit_of e - debit_of e)%float.
Proof.
  unfold numeric_amounts, next_balance, credit_of, debit_of, js_sub.
  destruct (get (fields e) "credit"), (get (fields e) "debit"); done.
Qed.

Lemma fold_next_balance_numeric entries :
  ∀ rb, forallb numeric_amounts entries = true →
    fold_left next_balance entries rb
    = fold_left (fun acc entry => (acc + credit_of entry - debit_of entry)%float)
                entries rb.
Proof.
  induction entries as [|e es IH]; intros rb H; [done |].
  simpl in *. apply andb_true_iff in H as [He Hes].
  rewrite next_balance_numeric by done. by apply IH.
Qed.

Lemma forallb_take {A} (f : A → bool) n (l : list A) :
  forallb f l = true → forallb f (take n l) = true.
Proof.
  revert n. induction l as [|x l IH]; intros [|n] H; simpl in *; try done.
  apply andb_true_iff in H as [-> H]. by apply IH.
Qed.

Lemma one_sided_step acc e :
  one_sided e = true →
  (acc + credit_of e - debit_of e)%float
  = (acc + (credit_of e - debit_of e))%float.
Proof.
  unfold one_sided, is_zero_amount. rewrite orb_true_iff.
  intros [H | H]; apply FloatAxioms.Leibniz.eqb_spec in H; rewrite H.
  - apply step_credit_zero.
  - apply step_debit_zero.
Qed.

Lemma fold_one_sided entries :
  ∀ rb, forallb one_sided entries = true →
    fold_left (fun acc entry => (acc + credit_of entry - debit_of entry)%float)
              entries rb
    = fold_left (fun acc entry => (acc + (credit_of entry - debit_of entry))%float)
                entries rb.
Proof.
  induction entries as [|e es IH]; intros rb H; [done |].
  simpl in *. apply andb_true_iff in H as [He Hes].
  rewrite one_sided_step by done. by apply IH.
Qed.

(** C1, as the code has it. For every sequence of entries as the store
    returns them (sorted by date or not) whose [credit] and [debit] are
    numbers, the list that GET returns gives the entry at position [i] the
    balance obtained by folding from the left, seeded at 0, over the
    positions 0 to [i], each step being [(balance + credit) - debit] on
    binary64 numbers. When the entries up to [i] carry a debit or a credit,
    not both, this is bit for bit the fold of [credit - debit]. *)
Theorem C1_balance_is_left_fold (entries : list Document) (i : nat) :
  forallb numeric_amounts entries = true →
  (i < length entries)%nat →
  balance_at (GET entries) i
  = Some (VNumber (running_balance (take (S i) entries)))
  ∧ (forallb one_sided (take (S i) entries) = true →
     balance_at (GET entries) i
     = Some (VNumber (sum_credit_minus_debit (take (S i) entries)))).
Proof.
  intros Hnum Hi.
  destruct (lookup_lt_is_Some_2 entries i Hi) as [e He].
  rewrite (balance_at_GET _ _ _ He).
  unfold running_balance, sum_credit_minus_debit.
  rewrite fold_next_balance_numeric by by apply forallb_take.
  split; [done |]. intros Hone. by rewrite fold_one_sided.
Qed.

(** The scenario of the specification: credits 100, 0 and debits 0, 40
    give the balances 100 and 60. *)
Lemma C1_scenario_balances :
  forallb numeric_amounts [alice; bob] = true
  ∧ (1 < length [alice; bob])%nat
  ∧ forallb one_sided [alice; bob] = true
  ∧ balance_at (GET [alice; bob]) 0 = Some (VNumber 100%float)
  ∧ balance_at (GET [alice; bob]) 1 = Some (VNumber 60%float).
Proof.
  assert (Hnum : forallb numeric_amounts [alice; bob] = true) by reflexivity.
  assert (Hlen0 : (0 < length [alice; bob])%nat) by repeat constructor.
  assert (Hlen1 : (1 < length [alice; bob])%nat) by repeat constructor.
  assert (Hone : forallb one_sided [alice; bob] = true) by reflexivity.
  split; [exact Hnum |]. split; [exact Hlen1 |]. split; [exact Hone |]. split.
  - rewrite (proj2 (C1_balance_is_left_fold [alice; bob] 0 Hnum Hlen0) eq_refl).
    reflexivity.
  - rewrite (proj2 (C1_balance_is_left_fold [alice; bob] 1 Hnum Hlen1) Hone).
    reflexivity.
Defined.

(** C1 as stated fails: the balance is not always the fold of
    [credit - debit]. For two entries in date order, a credit of 0.1 and
    then an entry with a credit of 0.2 and a debit of 0.3, the second
    balance is (0.1 + 0.2) - 0.3, which is not 0.1 + (0.2 - 0.3) on binary64
    numbers. *)
Lemma C1_counterexample :
  forallb numeric_amounts [erin; frank] = true
  ∧ get (fields erin) "date" = VString "2024-01-01"
  ∧ get (fields frank) "date" = VString "2024-01-02"
  ∧ str_le "2024-01-01" "2024-01-02" = true
  ∧ balance_at (GET [erin; frank]) 1
    = Some (VNumber (StringToNumber "5.551115123125783e-17"))
  ∧ sum_credit_minus_debit [erin; frank]
    = StringToNumber "2.7755575615628914e-17"
  ∧ balance_at (GET [erin; frank]) 1
    ≠ Some (VNumber (sum_credit_minus_debit [erin; frank])).
Proof.
  split; [reflexivity |]. split; [reflexivity |]. split; [reflexivity |].
  split; [reflexivity |].
  split; [vm_compute; reflexivity |]. split; [vm_compute; reflexivity |].
  intros H.
  apply (f_equal (fun o => match o with
                           | Some (VNumber x) =>
                               PrimFloat.Leibniz.eqb x
                                 (StringToNumber "2.7755575615628914e-17")
                           | _ => false
                           end)) in H.
  vm_compute in H. discriminate H.
Qed.

(** What POST and PUT write has numeric amounts: the entries that GET folds
    over are of this kind as long as the routes are the only writers. *)
Lemma newEntry_credit body now :
  newEntry body now !! "credit" = Some (number_or_0 (get body "credit")).
Proof. reflexivity. Qed.

Lemma newEntry_debit body now :
  newEntry body now !! "debit" = Some (number_or_0 (get body "debit")).
Proof. reflexivity. Qed.

Lemma updateData_credit body now :
  updateData body now !! "credit" = Some (number_or_0 (get body "credit")).
Proof. reflexivity. Qed.

Lemma updateData_debit body now :
  updateData body now !! "debit" = Some (number_or_0 (get body "debit")).
Proof. reflexivity. Qed.

(** Balances are not fixed in history: once the first entry of the
    scenario is deleted, the balance of the second is -40. *)
Example balance_after_delete :
  (DELETE ledger (_id alice)).2 = {[ _id bob := fields bob ]}
  ∧ balance_at (GET [bob]) 0 = Some (VNumber (-40)%float).
Proof. split; vm_compute; reflexivity. Qed.

(** *** Missing amounts *)

Lemma next_balance_NaN e : next_balance NaN e = NaN.
Proof. apply sub_add_NaN. Qed.

Lemma fold_next_balance_NaN entries : fold_left next_balance entries NaN = NaN.
Proof.
  induction entries as [|e es IH]; [done |].
  simpl. by rewrite next_balance_NaN.
Qed.

Lemma next_balance_missing rb e : missing_amount e → next_balance rb e = NaN.
Proof.
  unfold missing_amount, next_balance, js_sub. intros [-> | ->].
  - cbn [js_add ToNumber]. rewrite add_nan_r. apply sub_nan_l.
  - apply sub_nan_r.
Qed.

Lemma fold_next_balance_missing entries rb i e j :
  entries !! i = Some e → missing_amount e → (i ≤ j)%nat →
  fold_left next_balance (take (S j) entries) rb = NaN.
Proof.
  intros Hi Hmiss Hij.
  rewrite <- (take_drop_middle entries i e Hi).
  assert (Hlen : length (take i entries) = i).
  { apply length_take_le. apply lookup_lt_Some in Hi. lia. }
  rewrite take_app_ge by lia. rewrite Hlen.
  replace (S j - i)%nat with (S (j - i)) by lia.
  rewrite fold_left_app. cbn [take fold_left].
  rewrite next_balance_missing by done. apply fold_next_balance_NaN.
Qed.

(** C2, as the code has it. The balance computation never fails, but a
    missing amount is not taken for 0: an entry whose [credit] or [debit]
    is missing or [undefined] gets the balance [NaN], and so does every
    entry after it. *)
Theorem C2_missing_amount_gives_NaN (entries : list Document) :
  status (GET entries) = 200
  ∧ (∃ es, payload (GET entries) = Entries es ∧ length es = length entries)
  ∧ ∀ i e j,
      entries !! i = Some e → missing_amount e →
      (i ≤ j)%nat → (j < length entries)%nat →
      balance_at (GET entries) j = Some (VNumber NaN).
Proof.
  split; [reflexivity |]. split.
  - eexists. split; [reflexivity | apply processEntries_length].
  - intros i e j Hi Hmiss Hij Hj.
    destruct (lookup_lt_is_Some_2 entries j Hj) as [e' He'].
    rewrite (balance_at_GET _ _ _ He').
    by rewrite (fold_next_balance_missing _ _ _ _ _ Hi Hmiss Hij).
Qed.

Lemma C2_missing_amount_witness :
  [alice; carol; bob] !! 1%nat = Some carol
  ∧ missing_amount carol
  ∧ balance_at (GET [alice; carol; bob]) 1 = Some (VNumber NaN)
  ∧ balance_at (GET [alice; carol; bob]) 2 = Some (VNumber NaN).
Proof.
  assert (H1 : [alice; carol; bob] !! 1%nat = Some carol) by reflexivity.
  assert (H2 : missing_amount carol) by (right; reflexivity).
  destruct (C2_missing_amount_gives_NaN [alice; carol; bob]) as (_ & _ & H).
  split; [exact H1 |]. split; [exact H2 |]. split.
  - apply (H 1%nat carol 1%nat H1 H2); repeat constructor.
  - apply (H 1%nat carol 2%nat H1 H2); repeat constructor.
Defined.

(** C2 as stated fails: with the [debit] of an entry missing the balance
    is [NaN], and it is 10 once the missing amount is replaced by 0. *)
Lemma C2_counterexample :
  balance_at (GET [carol]) 0 = Some (VNumber NaN)
  ∧ balance_at (GET (map zero_missing [carol])) 0 = Some (VNumber 10%float)
  ∧ balance_at (GET [carol]) 0 ≠ balance_at (GET (map zero_missing [carol])) 0.
Proof.
  split; [reflexivity |]. split; [reflexivity |].
  intros H.
  apply (f_equal (fun o => match o with
                           | Some (VNumber x) => PrimFloat.is_nan x
                           | _ => false
                           end)) in H.
  vm_compute in H. discriminate H.
Qed.

(** What POST and PUT write is always a number other than [NaN]: the
    default 0 is applied when an entry is written. *)
Lemma number_or_0_number (v : jsval) :
  ∃ x, number_or_0 v = VNumber x ∧ PrimFloat.is_nan x = false.
Proof.
  unfold number_or_0, js_or. cbn [ToBoolean].
  destruct (number_falsy (Number v)) eqn:E; cbn [negb].
  - by exists PrimFloat.zero.
  - exists (Number v). split; [done |].
    unfold number_falsy in E. by apply orb_false_iff in E as [_ ->].
Qed.

(** *** Validation *)

Lemma missing_required_true body :
  missing_required body = true ↔ lacks_required body.
Proof.
  unfold missing_required, lacks_required.
  rewrite orb_true_iff, andb_true_iff, !negb_true_iff.
  by rewrite !ToBoolean_false.
Qed.

Lemma missing_required_false body :
  missing_required body = false ↔ ¬ lacks_required body.
Proof.
  rewrite <- missing_required_true. by destruct (missing_required body).
Qed.

(** The three ways out of POST. *)
Lemma POST_cases db request now insertedId :
  (∃ body, request = JsonObject body ∧ missing_required body = true
           ∧ POST db request now insertedId
             = (respond 400 (Error "Missing required fields"), db))
  ∨ (∃ body, request = JsonObject body ∧ missing_required body = false
             ∧ db !! insertedId = None
             ∧ status (POST db request now insertedId).1 = 201
             ∧ (POST db request now insertedId).2
               = <[insertedId := bson <$> newEntry body now]> db)
  ∨ (POST db request now insertedId
     = (respond 500 (Error "Failed to create entry"), db)).
Proof.
  unfold POST. destruct request as [| |body]; cbn; [by right; right ..|].
  destruct (missing_required body) eqn:Hm; cbn.
  - left. by exists body.
  - unfold insertOne. destruct (db !! insertedId) eqn:Hdb; cbn.
    + by right; right.
    + right; left. by exists body.
Qed.

(** The four ways out of PUT. *)
Lemma PUT_cases db id request now :
  (∃ body, request = JsonObject body ∧ missing_required body = true
           ∧ PUT db id request now
             = (respond 400 (Error "Missing required fields"), db))
  ∨ (∃ body oid, request = JsonObject body ∧ missing_required body = false
                 ∧ new_ObjectId id = Some oid ∧ db !! oid = None
                 ∧ PUT db id request now
                   = (respond 404 (Error "Entry not found"), db))
  ∨ (∃ body oid doc, request = JsonObject body ∧ missing_required body = false
                     ∧ new_ObjectId id = Some oid ∧ db !! oid = Some doc
                     ∧ PUT db id request now
                       = (respond 200 (Message "Entry updated successfully"),
                          <[oid := (bson <$> updateData body now) ∪ doc]> db))
  ∨ ((request = Malformed ∨ request = JsonNull ∨ new_ObjectId id = None)
     ∧ PUT db id request now
       = (respond 500 (Error "Failed to update entry"), db)).
Proof.
  unfold PUT. destruct request as [| |body]; cbn;
    [right; right; right; split; [by left | done]
    |right; right; right; split; [by right; left | done] |].
  destruct (missing_required body) eqn:Hm; cbn.
  - left. by exists body.
  - destruct (new_ObjectId id) as [oid|] eqn:Hid; cbn.
    + unfold updateOne. destruct (db !! oid) as [doc|] eqn:Hdb; cbn.
      * right; right; left. by exists body, oid, doc.
      * right; left. by exists body, oid.
    + right; right; right. split; [by right; right | done].
Qed.

(** The three ways out of DELETE. *)
Lemma DELETE_cases db id :
  (∃ oid, new_ObjectId id = Some oid ∧ db !! oid = None
          ∧ DELETE db id = (respond 404 (Error "Entry not found"), db))
  ∨ (∃ oid doc, new_ObjectId id = Some oid ∧ db !! oid = Some doc
                ∧ DELETE db id
                  = (respond 200 (Message "Entry deleted successfully"),
                     delete oid db))
  ∨ (new_ObjectId id = None
     ∧ DELETE db id = (respond 500 (Error "Failed to delete entry"), db)).
Proof.
  unfold DELETE. destruct (new_ObjectId id) as [oid|] eqn:Hid; cbn.
  - unfold deleteOne. destruct (db !! oid) as [doc|] eqn:Hdb; cbn.
    + right; left. by exists oid, doc.
    + left. by exists oid.
  - by right; right.
Qed.

(** C3, as the code has it. A create or update request is rejected with
    400 exactly when its body has no [particulars] or has neither a [debit]
    nor a [credit], the values being taken as they arrive, before the
    numeric coercion: undefined, null, false, the empty string, a zero and
    NaN count as absent, every other value (the string "0" too) as present.
    A rejected request leaves the collection as it was. *)
Theorem C3_rejected_iff_lacks_required
    (db : Collection) (request : Body) (now : jsval)
    (insertedId : ObjectId) (id : string) :
  (status (POST db request now insertedId).1 = 400
   ↔ ∃ body, request = JsonObject body ∧ lacks_required body)
  ∧ (status (PUT db id request now).1 = 400
     ↔ ∃ body, request = JsonObject body ∧ lacks_required body)
  ∧ (status (POST db request now insertedId).1 = 400
     → (POST db request now insertedId).2 = db)
  ∧ (status (PUT db id request now).1 = 400
     → (PUT db id request now).2 = db).
Proof.
  repeat split.
  - destruct (POST_cases db request now insertedId)
      as [(body & -> & Hm & ->)|[(body & -> & Hm & _ & Hs & _)| ->]].
    + intros _. exists body. split; [done | by apply missing_required_true].
    + rewrite Hs. done.
    + done.
  - intros (body & -> & Hl). apply missing_required_true in Hl.
    unfold POST. cbn. by rewrite Hl.
  - destruct (PUT_cases db id request now)
      as [(body & -> & Hm & ->)|[(body & oid & -> & Hm & _ & _ & ->)
         |[(body & oid & doc & -> & Hm & _ & _ & ->)|[_ ->]]]]; try done.
    intros _. exists body. split; [done | by apply missing_required_true].
  - intros (body & -> & Hl). apply missing_required_true in Hl.
    unfold PUT. cbn. by rewrite Hl.
  - destruct (POST_cases db request now insertedId)
      as [(body & _ & _ & ->)|[(body & _ & _ & _ & Hs & _)| ->]]; try done.
    rewrite Hs. done.
  - destruct (PUT_cases db id request now)
      as [(body & _ & _ & ->)|[(body & oid & _ & _ & _ & _ & ->)
         |[(body & oid & doc & _ & _ & _ & _ & ->)|[_ ->]]]]; done.
Qed.

Lemma C3_rejected_witness :
  status (POST ledger (JsonObject empty_particulars_body) today dave_id).1 = 400
  ∧ lacks_required empty_particulars_body
  ∧ (POST ledger (JsonObject empty_particulars_body) today dave_id).2 = ledger
  ∧ (PUT ledger (_id alice) (JsonObject empty_particulars_body) today).2 = ledger.
Proof.
  destruct (C3_rejected_iff_lacks_required
              ledger (JsonObject empty_particulars_body) today dave_id (_id alice))
    as (H1 & H2 & H3 & H4).
  split; [reflexivity |]. split.
  - destruct (proj1 H1 eq_refl) as (body & [= <-] & Hl). exact Hl.
  - split; [exact (H3 eq_refl) | exact (H4 eq_refl)].
Defined.

(** C3 as stated fails: the form sends its inputs as strings, and with 0
    typed in both amount inputs the amounts are both 0 after the numeric
    coercion, yet the entry is created (201) and stored, and an update
    with the same body succeeds (200). *)
Lemma C3_counterexample :
  number_or_0 (get zero_amounts_body "debit") = VNumber 0%float
  ∧ number_or_0 (get zero_amounts_body "credit") = VNumber 0%float
  ∧ status (POST ledger (JsonObject zero_amounts_body) today dave_id).1 = 201
  ∧ (POST ledger (JsonObject zero_amounts_body) today dave_id).2 !! dave_id
    = Some (newEntry zero_amounts_body today)
  ∧ status (PUT ledger (_id alice) (JsonObject zero_amounts_body) today).1 = 200.
Proof. repeat split; vm_compute; reflexivity. Qed.

(** *** The amounts that the routes write *)

Lemma is_number_written v : is_number (bson (number_or_0 v)) = true.
Proof. by destruct (number_or_0_number v) as (x & -> & _). Qed.

Lemma numeric_amounts_written (doc : Fields) oid c d :
  doc !! "credit" = Some (bson (number_or_0 c)) →
  doc !! "debit" = Some (bson (number_or_0 d)) →
  numeric_amounts {| _id := oid; fields := doc |} = true.
Proof.
  intros Hc Hd. unfold numeric_amounts, get. cbn [fields].
  rewrite Hc, Hd.
  change (is_number (bson (number_or_0 c)) && is_number (bson (number_or_0 d)) = true).
  by rewrite !is_number_written.
Qed.

Lemma numeric_collection_insert (db : Collection) oid (doc : Fields) :
  numeric_collection db →
  numeric_amounts {| _id := oid; fields := doc |} = true →
  numeric_collection (<[oid := doc]> db).
Proof.
  intros Hdb Hdoc oid' doc'. rewrite lookup_insert.
  case_decide as Hk; [intros [= <-]; by subst | apply Hdb].
Qed.

(** The routes keep the amounts of every stored entry numeric. *)
Lemma numeric_collection_preserved db request now insertedId id :
  numeric_collection db →
  numeric_collection (POST db request now insertedId).2
  ∧ numeric_collection (PUT db id request now).2
  ∧ numeric_collection (DELETE db id).2.
Proof.
  intros Hdb. repeat split.
  - destruct (POST_cases db request now insertedId)
      as [(body & _ & _ & ->)|[(body & _ & _ & _ & _ & ->)| ->]]; try done.
    apply numeric_collection_insert; [done |].
    eapply numeric_amounts_written;
      by rewrite lookup_fmap, ?newEntry_credit, ?newEntry_debit.
  - destruct (PUT_cases db id request now)
      as [(body & _ & _ & ->)|[(body & oid & _ & _ & _ & _ & ->)
         |[(body & oid & doc & _ & _ & _ & Hoid & ->)|[_ ->]]]]; try done.
    apply numeric_collection_insert; [done |].
    eapply numeric_amounts_written; apply lookup_union_Some_l;
      by rewrite lookup_fmap, ?updateData_credit, ?updateData_debit.
  - destruct (DELETE_cases db id)
      as [(oid & _ & _ & ->)|[(oid & doc & _ & _ & ->)|[_ ->]]]; try done.
    cbn [snd]. intros oid' doc'. rewrite lookup_delete.
    case_decide; [done | apply Hdb].
Qed.

(** *** The stored fields *)

Lemma newEntry_no_balance body now : newEntry body now !! "balance" = None.
Proof. reflexivity. Qed.

Lemma updateData_no_balance body now : updateData body now !! "balance" = None.
Proof. reflexivity. Qed.

Lemma no_balance_insert (db : Collection) oid (doc : Fields) :
  no_balance db → doc !! "balance" = None → no_balance (<[oid := doc]> db).
Proof.
  intros Hdb Hdoc oid' doc'. rewrite lookup_insert.
  case_decide; [by intros [= <-] | apply Hdb].
Qed.

Lemma no_balance_delete (db : Collection) oid :
  no_balance db → no_balance (delete oid db).
Proof.
  intros Hdb oid' doc'. rewrite lookup_delete.
  case_decide; [done | apply Hdb].
Qed.

Lemma get_with_balance v e k :
  k ≠ "balance" → get (fields (with_balance v e)) k = get (fields e) k.
Proof. intros Hk. unfold get, with_balance. cbn. by rewrite lookup_insert_ne. Qed.

Lemma next_balance_with_balance v rb e :
  next_balance rb (with_balance v e) = next_balance rb e.
Proof. unfold next_balance. by rewrite !get_with_balance. Qed.

Lemma fold_next_balance_with_balance v entries :
  ∀ rb, fold_left next_balance (map (with_balance v) entries) rb
        = fold_left next_balance entries rb.
Proof.
  induction entries as [|e es IH]; intros rb; [done |].
  cbn [map fold_left]. by rewrite next_balance_with_balance.
Qed.

(** C6. Neither the record that POST persists nor the field set that PUT
    applies contains a [balance]; no route writes one into the collection;
    and the balance that GET returns does not depend on a [balance] that a
    document may carry: it is derived on every read. *)
Theorem C6_balance_never_persisted :
  (∀ body now, newEntry body now !! "balance" = None)
  ∧ (∀ body now, updateData body now !! "balance" = None)
  ∧ (∀ db request now insertedId id,
       no_balance db →
       no_balance (POST db request now insertedId).2
       ∧ no_balance (PUT db id request now).2
       ∧ no_balance (DELETE db id).2)
  ∧ (∀ entries v i,
       balance_at (GET (map (with_balance v) entries)) i
       = balance_at (GET entries) i).
Proof.
  split; [exact newEntry_no_balance |].
  split; [exact updateData_no_balance |].
  split.
  - intros db request now insertedId id Hdb. repeat split.
    + destruct (POST_cases db request now insertedId)
        as [(body & _ & _ & ->)|[(body & _ & _ & _ & _ & ->)| ->]]; try done.
      apply no_balance_insert; [done |].
      by rewrite lookup_fmap, newEntry_no_balance.
    + destruct (PUT_cases db id request now)
        as [(body & _ & _ & ->)|[(body & oid & _ & _ & _ & _ & ->)
           |[(body & oid & doc & _ & _ & _ & Hoid & ->)|[_ ->]]]]; try done.
      apply no_balance_insert; [done |].
      apply lookup_union_None. split.
      * by rewrite lookup_fmap, updateData_no_balance.
      * by apply (Hdb oid).
    + destruct (DELETE_cases db id)
        as [(oid & _ & _ & ->)|[(oid & doc & _ & _ & ->)|[_ ->]]]; try done.
      by apply no_balance_delete.
  - intros entries v i.
    destruct (entries !! i) as [e|] eqn:He.
    + rewrite (balance_at_GET entries i e He).
      assert (He' : map (with_balance v) entries !! i = Some (with_balance v e)).
      { change (map (with_balance v) entries) with (with_balance v <$> entries).
        by rewrite list_lookup_fmap, He. }
      rewrite (balance_at_GET _ i _ He').
      change (map (with_balance v) entries) with (with_balance v <$> entries).
      rewrite <- fmap_take.
      change (with_balance v <$> take (S i) entries)
        with (map (with_balance v) (take (S i) entries)).
      by rewrite fold_next_balance_with_balance.
    + unfold balance_at, GET. cbn [payload].
      rewrite !(lookup_ge_None_2 (processEntries _ _));
        [done | | ]; rewrite processEntries_length.
      * by apply lookup_ge_None.
      * rewrite length_map. by apply lookup_ge_None.
Qed.

Lemma C6_balance_never_persisted_witness :
  no_balance ledger
  ∧ no_balance (POST ledger (JsonObject valid_body) today dave_id).2
  ∧ no_balance (PUT ledger (_id alice) (JsonObject valid_body) today).2
  ∧ no_balance (DELETE ledger (_id alice)).2.
Proof.
  assert (H : no_balance ledger).
  { intros oid doc. unfold ledger. rewrite lookup_insert.
    case_decide; [by intros [= <-] |].
    rewrite lookup_singleton. case_decide; [by intros [= <-] | done]. }
  split; [exact H |].
  destruct C6_balance_never_persisted as (_ & _ & Hstep & _).
  exact (Hstep ledger (JsonObject valid_body) today dave_id (_id alice) H).
Defined.

(** *** Unknown identifiers *)

(** C8, as the code has it. A DELETE request with a well-formed id, and a
    PUT request with a well-formed id whose body passes the validation
    guard, answers 404 exactly when no stored entry has that id, and then
    changes nothing; otherwise it answers 200, removes or updates that
    entry and leaves every other entry as it was. *)
Theorem C8_not_found_iff_absent (db : Collection) (id : string) (oid : ObjectId) :
  new_ObjectId id = Some oid →
  ((status (DELETE db id).1 = 404 ↔ db !! oid = None)
   ∧ (db !! oid = None → (DELETE db id).2 = db)
   ∧ (is_Some (db !! oid) →
      status (DELETE db id).1 = 200
      ∧ (DELETE db id).2 !! oid = None
      ∧ ∀ oid', oid' ≠ oid → (DELETE db id).2 !! oid' = db !! oid'))
  ∧ ∀ body now,
      ¬ lacks_required body →
      (status (PUT db id (JsonObject body) now).1 = 404 ↔ db !! oid = None)
      ∧ (db !! oid = None → (PUT db id (JsonObject body) now).2 = db)
      ∧ ∀ doc, db !! oid = Some doc →
          status (PUT db id (JsonObject body) now).1 = 200
          ∧ (PUT db id (JsonObject body) now).2 !! oid
            = Some ((bson <$> updateData body now) ∪ doc)
          ∧ ∀ oid', oid' ≠ oid →
              (PUT db id (JsonObject body) now).2 !! oid' = db !! oid'.
Proof.
  intros Hid. split.
  - destruct (DELETE_cases db id)
      as [(o & Ho & Hdb & ->)|[(o & doc & Ho & Hdb & ->)|[Ho _]]];
      [| | congruence]; assert (o = oid) as -> by congruence; cbn.
    + split; [done |]. split; [done |].
      intros [doc Hdoc]. congruence.
    + split; [split; [done | congruence] |]. split; [congruence |].
      intros _. split; [done |]. split.
      * apply lookup_delete_eq.
      * intros oid' Hne. by apply lookup_delete_ne.
  - intros body now Hvalid. apply missing_required_false in Hvalid.
    destruct (PUT_cases db id (JsonObject body) now)
      as [(b & [= <-] & Hm & _)|[(b & o & [= <-] & _ & Ho & Hdb & ->)
         |[(b & o & doc & [= <-] & _ & Ho & Hdb & ->)|[[H|[H|H]] _]]]];
      try congruence; assert (o = oid) as -> by congruence; cbn.
    + split; [done |]. split; [done |].
      intros doc Hdoc. congruence.
    + split; [split; [done | congruence] |]. split; [congruence |].
      intros doc' Hdoc'. assert (doc' = doc) as -> by congruence.
      split; [done |]. split.
      * apply lookup_insert_eq.
      * intros oid' Hne. by apply lookup_insert_ne.
Qed.

Lemma C8_not_found_witness :
  new_ObjectId unknown_id = Some unknown_id
  ∧ ¬ lacks_required valid_body
  ∧ ledger !! unknown_id = None
  ∧ status (DELETE ledger unknown_id).1 = 404
  ∧ status (PUT ledger unknown_id (JsonObject valid_body) today).1 = 404.
Proof.
  assert (Hid : new_ObjectId unknown_id = Some unknown_id) by reflexivity.
  assert (Hv : ¬ lacks_required valid_body).
  { apply missing_required_false. reflexivity. }
  assert (Hdb : ledger !! unknown_id = None) by reflexivity.
  destruct (C8_not_found_iff_absent ledger unknown_id unknown_id Hid)
    as ((Hd & _) & Hp).
  destruct (Hp valid_body today Hv) as (Hp' & _).
  split; [exact Hid |]. split; [exact Hv |]. split; [exact Hdb |].
  split; [exact (proj2 Hd Hdb) | exact (proj2 Hp' Hdb)].
Defined.

(** C8 as stated fails for PUT: the validation guard comes first, so an
    update for an id that no entry has is answered 400 when its body is
    rejected, and an update for an id that an entry has does not succeed
    either. *)
Lemma C8_counterexample :
  new_ObjectId unknown_id = Some unknown_id
  ∧ ledger !! unknown_id = None
  ∧ status (PUT ledger unknown_id (JsonObject empty_particulars_body) today).1 = 400
  ∧ new_ObjectId (_id alice) = Some (_id alice)
  ∧ ledger !! _id alice = Some (fields alice)
  ∧ PUT ledger (_id alice) (JsonObject empty_particulars_body) today
    = (respond 400 (Error "Missing required fields"), ledger).
Proof. repeat split; vm_compute; reflexivity. Qed.

End ApiFacts.

(** ** The statement component *)

Module StatementFacts.
Import ES Statement ESFacts.

(** *** Searching *)

Lemma truthy_eqb s : truthy s = negb (String.eqb s "").
Proof. reflexivity. Qed.

Lemma filter_filter {A} (f g : A → bool) (l : list A) :
  List.filter g (List.filter f l) = List.filter (fun x => f x && g x) l.
Proof.
  induction l as [|x l IH]; [done |].
  cbn. destruct (f x); cbn; [destruct (g x) |]; by rewrite IH.
Qed.

Lemma filter_all {A} (l : list A) : List.filter (fun _ => true) l = l.
Proof. induction l as [|x l IH]; cbn; [done | by rewrite IH]. Qed.

Lemma filter_sublist {A} (f : A → bool) (l : list A) :
  sublist (List.filter f l) l.
Proof.
  induction l as [|x l IH]; cbn; [constructor |].
  destruct (f x); by constructor.
Qed.

Lemma elem_of_filter {A} (f : A → bool) (l : list A) x :
  x ∈ List.filter f l ↔ x ∈ l ∧ f x = true.
Proof. rewrite !list_elem_of_In. apply filter_In. Qed.

(** The three conditional passes amount to one pass with the conjunction
    of the criteria. *)
Lemma handleSearch_filter st :
  filteredEntries (handleSearch st)
  = List.filter (satisfies (exportFilters st)) (entries st).
Proof.
  unfold handleSearch, satisfies, text_criterion, start_criterion, end_criterion.
  cbn [filteredEntries]. rewrite !truthy_eqb.
  destruct (String.eqb (filter_particulars _) ""),
           (String.eqb (startDate _) ""),
           (String.eqb (endDate _) ""); cbn [negb];
    rewrite ?filter_filter; try rewrite <- (filter_all (entries st)) at 1;
    rewrite ?filter_filter; apply filter_ext; intros e; cbn;
    rewrite ?andb_true_r, ?andb_assoc; reflexivity.
Qed.

(** A start date of 2024-01-02 keeps the second entry of the scenario
    only. *)
Example search_from_second_day :
  filteredEntries
    (handleSearch
       {| entries := [alice; bob];
          exportFilters :=
            {| filter_particulars := ""; startDate := "2024-01-02"; endDate := "" |};
          filteredEntries := [] |})
  = [bob].
Proof. reflexivity. Qed.

(** C4. The filter returns the entries of the input that satisfy every
    criterion that is present, an empty criterion being absent and always
    satisfied; the result is a subsequence of the input, so its ids are a
    sub-multiset of the input's ids, in the input's order; and the input
    list is left as it was. *)
Theorem C4_filter_is_conjunctive_subsequence (st : State) :
  filteredEntries (handleSearch st)
  = List.filter (satisfies (exportFilters st)) (entries st)
  ∧ sublist (filteredEntries (handleSearch st)) (entries st)
  ∧ (id <$> filteredEntries (handleSearch st)) ⊆+ (id <$> entries st)
  ∧ (∀ e, e ∈ filteredEntries (handleSearch st)
          ↔ e ∈ entries st
            ∧ (filter_particulars (exportFilters st) = ""
               ∨ includes (toLowerCase (particulars e))
                          (toLowerCase (filter_particulars (exportFilters st)))
                 = true)
            ∧ (startDate (exportFilters st) = ""
               ∨ str_ge (date e) (startDate (exportFilters st)) = true)
            ∧ (endDate (exportFilters st) = ""
               ∨ str_le (date e) (endDate (exportFilters st)) = true))
  ∧ entries (handleSearch st) = entries st
  ∧ exportFilters (handleSearch st) = exportFilters st.
Proof.
  split; [apply handleSearch_filter |]. rewrite handleSearch_filter.
  split; [apply filter_sublist |].
  split; [apply sublist_submseteq, fmap_sublist, filter_sublist |].
  split; [| done].
  intros e. rewrite elem_of_filter.
  unfold satisfies, text_criterion, start_criterion, end_criterion.
  rewrite !andb_true_iff.
  destruct (String.eqb_spec (filter_particulars (exportFilters st)) "") as [-> | Hq],
           (String.eqb_spec (startDate (exportFilters st)) "") as [-> | Hs],
           (String.eqb_spec (endDate (exportFilters st)) "") as [-> | He];
    intuition congruence.
Qed.

(** C5, as the code has it. The text criterion applies whenever the query
    is not the empty string (the query is not trimmed), and an entry then
    matches exactly when the query, in lower case, occurs in its
    particulars, in lower case. *)
Theorem C5_text_criterion (st : State) (e : AccountEntry) :
  e ∈ filteredEntries (handleSearch st)
  ↔ e ∈ entries st
    ∧ (filter_particulars (exportFilters st) = ""
       ∨ occurs_in (toLowerCase (filter_particulars (exportFilters st)))
                   (toLowerCase (particulars e)))
    ∧ start_criterion (exportFilters st) e = true
    ∧ end_criterion (exportFilters st) e = true.
Proof.
  rewrite handleSearch_filter, elem_of_filter.
  unfold satisfies, text_criterion. rewrite !andb_true_iff.
  rewrite <- includes_occurs_in.
  destruct (String.eqb_spec (filter_particulars (exportFilters st)) "")
    as [-> | Hq]; intuition congruence.
Qed.

(** C5 as stated fails: a query of one space is empty after trimming, and
    yet it is applied and excludes both entries. *)
Lemma C5_counterexample :
  trim (filter_particulars (exportFilters blank_query)) = ""
  ∧ entries blank_query = [alice; bob]
  ∧ filteredEntries (handleSearch blank_query) = [].
Proof. repeat split. Qed.

(** *** Formatting *)

Lemma join_concat sep row :
  join sep row = String.concat sep (map join_element row).
Proof.
  induction row as [|v row IH]; [done |].
  destruct row as [|w row]; [done |].
  cbn [join map String.concat] in *. by rewrite IH.
Qed.

Lemma join_strings sep (l : list string) :
  join sep (map VString l) = String.concat sep l.
Proof.
  rewrite join_concat, map_map. cbn [join_element ToString].
  by rewrite map_id.
Qed.

(** [v || "-"], once turned into text, is the amount cell. *)
Lemma ToString_or_placeholder v :
  ToString (js_or v (VString "-")) = amount_cell v.
Proof. unfold js_or, amount_cell. by destruct (ToBoolean v). Qed.

Lemma join_element_or_placeholder v :
  join_element (js_or v (VString "-")) = amount_cell v.
Proof.
  unfold js_or, amount_cell. destruct (ToBoolean v) eqn:E; [| done].
  by destruct v.
Qed.

Lemma join_csv_row e : join "," (csv_row e) = csv_line e.
Proof.
  unfold csv_row, csv_line. rewrite join_concat. cbn [map].
  by rewrite !join_element_or_placeholder.
Qed.

Lemma csvContent_lines data :
  csvContent data = String.concat newline (csv_header_line :: map csv_line data).
Proof.
  unfold csvContent.
  rewrite <- (map_map (join ",") VString), join_strings.
  cbn [map]. rewrite map_map.
  change (join "," csv_header) with csv_header_line.
  f_equal. f_equal. apply map_ext. apply join_csv_row.
Qed.

Lemma share_line_text e : share_line e = share_text_line e.
Proof.
  unfold share_line, share_text_line.
  rewrite !ToString_or_placeholder, !append_assoc. reflexivity.
Qed.

Lemma concat_no_separator x (xs : list string) :
  String.concat "" (x :: xs) = x +:+ String.concat "" xs.
Proof. destruct xs; [by rewrite append_nil_r | done]. Qed.

Lemma shareMessage_lines data :
  shareMessage data
  = share_title +:+ String.concat "" (map share_text_line data).
Proof.
  unfold shareMessage. fold share_title. generalize share_title as message.
  induction data as [|e data IH]; intros message.
  - cbn. by rewrite append_nil_r.
  - cbn [fold_left map]. rewrite IH, concat_no_separator, append_assoc.
    by rewrite share_line_text.
Qed.

Lemma amount_cell_falsy v : falsy v → amount_cell v = "-".
Proof. intros H. apply ToBoolean_false in H. unfold amount_cell. by rewrite H. Qed.

(** C7. In the CSV text and in the shared text, each of the four amounts
    of an entry (debitCountry, debit, creditCountry, credit) that is zero
    or otherwise falsy is shown as the placeholder "-", never as "0". *)
Theorem C7_falsy_amount_is_placeholder :
  (∀ st, exportToCSV st
         = String.concat newline
             (csv_header_line :: map csv_line (dataToExport st)))
  ∧ (∀ st, shareViaWhatsApp st
           = share_title
             +:+ String.concat "" (map share_text_line (dataToExport st)))
  ∧ (∀ v, amount_cell v = join_element (js_or v (VString "-"))
          ∧ amount_cell v = ToString (js_or v (VString "-")))
  ∧ (∀ v, falsy v → amount_cell v = "-" ∧ amount_cell v ≠ "0").
Proof.
  split; [intros st; apply csvContent_lines |].
  split; [intros st; apply shareMessage_lines |].
  split.
  - intros v. by rewrite join_element_or_placeholder, ToString_or_placeholder.
  - intros v Hv. rewrite (amount_cell_falsy v Hv). done.
Qed.

Lemma C7_falsy_amount_witness :
  falsy (debit alice)
  ∧ amount_cell (debit alice) = "-"
  ∧ amount_cell (debit alice) ≠ "0"
  ∧ csv_line alice = "2024-01-01,Alice,-,-,-,100,100".
Proof.
  assert (H : falsy (debit alice)).
  { do 4 right. exists 0%float. repeat split. by left. }
  destruct C7_falsy_amount_is_placeholder as (_ & _ & _ & Hcell).
  destruct (Hcell (debit alice) H) as [H1 H2].
  split; [exact H |]. split; [exact H1 |]. split; [exact H2 | reflexivity].
Defined.

(** C9, as the code has it. Both export formats emit the date of an entry
    as it is stored: every record of the CSV text starts with the stored
    string followed by a comma, every line of the shared text with the
    stored string followed by " | ". *)
Theorem C9_exports_emit_stored_date :
  (∀ st, exportToCSV st
         = String.concat newline
             (csv_header_line :: map csv_line (dataToExport st)))
  ∧ (∀ st, shareViaWhatsApp st
           = share_title
             +:+ String.concat "" (map share_text_line (dataToExport st)))
  ∧ (∀ e, startsWith (date e +:+ ",") (csv_line e) = true)
  ∧ (∀ e, startsWith (date e +:+ " | ") (share_text_line e) = true).
Proof.
  split; [intros st; apply csvContent_lines |].
  split; [intros st; apply shareMessage_lines |].
  split; intros e; apply startsWith_prefix.
  - eexists. unfold csv_line. cbn [String.concat].
    rewrite <- append_assoc. reflexivity.
  - eexists. unfold share_text_line.
    rewrite <- (append_assoc (date e) " | "). reflexivity.
Qed.

(** C9 as stated fails: the stored date "2024-01-01" is what both export
    formats show for the entry. *)
Lemma C9_counterexample :
  date alice = "2024-01-01"
  ∧ csv_row alice !! 0%nat = Some (VString "2024-01-01")
  ∧ exportToCSV loaded
    = "Date,Particulars,Debit Country,Debit (Out),Credit Country,Credit (In),Balance"
      +:+ newline +:+ "2024-01-01,Alice,-,-,-,100,100"
      +:+ newline +:+ "2024-01-02,Bob,-,40,-,-,60"
  ∧ shareViaWhatsApp loaded
    = "Account Statement:" +:+ newline +:+ newline
      +:+ "2024-01-01 | Alice | Debit Country: - | Debit: - | Credit Country: - | Credit: 100 | Balance: 100"
      +:+ newline
      +:+ "2024-01-02 | Bob | Debit Country: - | Debit: 40 | Credit Country: - | Credit: - | Balance: 60"
      +:+ newline.
Proof. repeat split; vm_compute; reflexivity. Qed.

(** *** The fallback of the exports *)

(** C10. When the filtered set is empty, both exports format the complete
    list of entries; so after a search that matches nothing, both exports
    contain every entry. *)
Theorem C10_empty_filter_exports_everything (st : State) :
  (filteredEntries st = [] →
   exportToCSV st = csvContent (entries st)
   ∧ shareViaWhatsApp st = shareMessage (entries st))
  ∧ (filteredEntries (handleSearch st) = [] →
     exportToCSV (handleSearch st) = csvContent (entries st)
     ∧ shareViaWhatsApp (handleSearch st) = shareMessage (entries st)).
Proof.
  assert (H : ∀ s, filteredEntries s = [] → dataToExport s = entries s).
  { intros s Hs. unfold dataToExport. by rewrite Hs. }
  split; intros Hempty; unfold exportToCSV, shareViaWhatsApp;
    by rewrite (H _ Hempty).
Qed.

Lemma C10_empty_filter_witness :
  filteredEntries loaded = []
  ∧ filteredEntries (handleSearch no_match_query) = []
  ∧ exportToCSV loaded = csvContent [alice; bob]
  ∧ exportToCSV (handleSearch no_match_query) = csvContent [alice; bob]
  ∧ shareViaWhatsApp (handleSearch no_match_query) = shareMessage [alice; bob].
Proof.
  assert (H1 : filteredEntries loaded = []) by reflexivity.
  assert (H2 : filteredEntries (handleSearch no_match_query) = []) by reflexivity.
  destruct (C10_empty_filter_exports_everything loaded) as [Ha _].
  destruct (C10_empty_filter_exports_everything no_match_query) as [_ Hb].
  split; [exact H1 |]. split; [exact H2 |].
  split; [exact (proj1 (Ha H1)) |].
  split; [exact (proj1 (Hb H2)) | exact (proj2 (Hb H2))].
Defined.

End StatementFacts.

(** ** More about the routes *)

Module ApiMore.
Import ES Api Journal ESFacts ApiFacts.

(** *** What a request can do to the collection *)




(** X2. POST answers 201 exactly when the body passes the guard and the
    generated id is not taken; the collection then holds the new entry
    under that id and the answer carries the entry with that id. Whatever
    the answer, POST leaves every entry that was stored as it was. *)
Theorem POST_creates_one_entry
    (db : Collection) (request : Body) (now : jsval) (insertedId : ObjectId) :
  (status (POST db request now insertedId).1 = 201
   ↔ ∃ body, request = JsonObject body ∧ ¬ lacks_required body
             ∧ db !! insertedId = None)
  ∧ (∀ body, request = JsonObject body →
       status (POST db request now insertedId).1 = 201 →
       (POST db request now insertedId).2 !! insertedId
       = Some (bson <$> newEntry body now)
       ∧ payload (POST db request now insertedId).1
         = Entry (<["_id" := VUndefined]>
                    (<["id" := VString insertedId]> (newEntry body now))))
  ∧ (∀ oid doc, db !! oid = Some doc →
       (POST db request now insertedId).2 !! oid = Some doc).
Proof.
  split; [| split].
  - destruct (POST_cases db request now insertedId)
      as [(body & -> & Hm & ->)|[(body & -> & Hm & Hdb & Hs & _)| H]].
    + split; [done |]. intros (b & [= <-] & Hl & _).
      by apply missing_required_false in Hl; congruence.
    + rewrite Hs. split; [| done]. intros _. exists body.
      split; [done |]. split; [by apply missing_required_false | done].
    + rewrite H. split; [done |]. intros (b & -> & Hl & Hdb).
      apply missing_required_false in Hl.
      unfold POST, insertOne in H. cbn in H. rewrite Hl, Hdb in H.
      cbn in H. by injection H.
  - intros body -> Hs. unfold POST, insertOne in *. cbn in *.
    destruct (missing_required body); [done |].
    destruct (db !! insertedId); cbn in *; [done |].
    split; [apply lookup_insert_eq | done].
  - intros oid doc Hdoc.
    destruct (POST_cases db request now insertedId)
      as [(body & _ & _ & ->)|[(body & _ & _ & Hdb & _ & ->)| ->]]; try done.
    cbn [snd]. rewrite lookup_insert_ne; [done |].
    intros Heq. subst. enough (Some doc = None) by done.
    rewrite <- Hdoc. exact Hdb.
Qed.

Lemma POST_creates_one_entry_witness :
  status (POST ledger (JsonObject valid_body) today dave_id).1 = 201
  ∧ (POST ledger (JsonObject valid_body) today dave_id).2 !! dave_id
    = Some (bson <$> newEntry valid_body today)
  ∧ (POST ledger (JsonObject valid_body) today dave_id).2 !! _id alice
    = Some (fields alice).
Proof.
  assert (Hs : status (POST ledger (JsonObject valid_body) today dave_id).1 = 201)
    by reflexivity.
  destruct (POST_creates_one_entry ledger (JsonObject valid_body) today dave_id)
    as (_ & Hnew & Hold).
  split; [exact Hs |]. split.
  - exact (proj1 (Hnew valid_body eq_refl Hs)).
  - exact (Hold (_id alice) (fields alice) eq_refl).
Defined.

(** X3. Creating an entry and then deleting it by the id it was given
    puts the collection back as it was. *)
Theorem POST_then_DELETE_restores
    (db : Collection) (request : Body) (now : jsval) (insertedId : ObjectId)
    (id : string) :
  new_ObjectId id = Some insertedId →
  status (POST db request now insertedId).1 = 201 →
  DELETE (POST db request now insertedId).2 id
  = (respond 200 (Message "Entry deleted successfully"), db).
Proof.
  intros Hid Hs.
  destruct (POST_cases db request now insertedId)
    as [(body & _ & _ & H)|[(body & _ & _ & Hdb & _ & ->)| H]];
    [by rewrite H in Hs | | by rewrite H in Hs].
  unfold DELETE, deleteOne. rewrite Hid. cbn.
  rewrite lookup_insert_eq. cbn. by rewrite delete_insert_id.
Qed.

Lemma POST_then_DELETE_witness :
  new_ObjectId dave_id = Some dave_id
  ∧ status (POST ledger (JsonObject valid_body) today dave_id).1 = 201
  ∧ (DELETE (POST ledger (JsonObject valid_body) today dave_id).2 dave_id).2
    = ledger.
Proof.
  assert (H1 : new_ObjectId dave_id = Some dave_id) by reflexivity.
  assert (H2 : status (POST ledger (JsonObject valid_body) today dave_id).1 = 201)
    by reflexivity.
  split; [exact H1 |]. split; [exact H2 |].
  by rewrite (POST_then_DELETE_restores ledger (JsonObject valid_body) today
                dave_id dave_id H1 H2).
Defined.

(** X4. Once an entry is deleted, deleting it again or updating it is
    answered 404 and changes nothing. *)
Theorem deleted_entry_is_gone (db : Collection) (id : string) :
  status (DELETE db id).1 = 200 →
  DELETE (DELETE db id).2 id
  = (respond 404 (Error "Entry not found"), (DELETE db id).2)
  ∧ ∀ body now,
      ¬ lacks_required body →
      PUT (DELETE db id).2 id (JsonObject body) now
      = (respond 404 (Error "Entry not found"), (DELETE db id).2).
Proof.
  intros Hs.
  destruct (DELETE_cases db id)
    as [(oid & _ & _ & H)|[(oid & doc & Hid & Hdb & ->)|[_ H]]];
    [by rewrite H in Hs | | by rewrite H in Hs].
  cbn [snd]. split.
  - unfold DELETE, deleteOne. rewrite Hid. cbn. by rewrite lookup_delete_eq.
  - intros body now Hv. apply missing_required_false in Hv.
    unfold PUT, updateOne. cbn. rewrite Hv, Hid. cbn.
    by rewrite lookup_delete_eq.
Qed.

Lemma deleted_entry_is_gone_witness :
  status (DELETE ledger (_id alice)).1 = 200
  ∧ status (DELETE (DELETE ledger (_id alice)).2 (_id alice)).1 = 404.
Proof.
  assert (H : status (DELETE ledger (_id alice)).1 = 200) by reflexivity.
  split; [exact H |].
  by rewrite (proj1 (deleted_entry_is_gone ledger (_id alice) H)).
Defined.

(** X5. Sending the same update twice is the same as sending it once:
    the second PUT gets the answer of the first and leaves the collection
    as the first left it. *)
Theorem PUT_twice (db : Collection) (id : string) (request : Body) (now : jsval) :
  PUT (PUT db id request now).2 id request now
  = ((PUT db id request now).1, (PUT db id request now).2).
Proof.
  destruct (PUT_cases db id request now)
    as [(body & _ & _ & H)|[(body & oid & _ & _ & _ & _ & H)
       |[(body & oid & doc & -> & Hm & Hid & Hdb & H)|[_ H]]]];
    try (rewrite H; cbn [fst snd]; by rewrite H).
  rewrite H. cbn [fst snd].
  unfold PUT, updateOne. cbn. rewrite Hm, Hid. cbn.
  rewrite lookup_insert_eq. cbn.
  by rewrite insert_insert_eq, (assoc_L (∪)), (idemp_L (∪)).
Qed.

(** X6. An update replaces the seven fields it sets and keeps every other
    field of the stored entry, [createdAt] among them. *)
Theorem PUT_keeps_other_fields
    (db : Collection) (id : string) (oid : ObjectId) (doc body : Fields)
    (now : jsval) :
  new_ObjectId id = Some oid →
  db !! oid = Some doc →
  ¬ lacks_required body →
  ∃ doc', (PUT db id (JsonObject body) now).2 !! oid = Some doc'
    ∧ (∀ k v, updateData body now !! k = Some v → doc' !! k = Some (bson v))
    ∧ (∀ k, updateData body now !! k = None → doc' !! k = doc !! k)
    ∧ doc' !! "createdAt" = doc !! "createdAt"
    ∧ doc' !! "updatedAt" = Some (bson now).
Proof.
  intros Hid Hdb Hv. apply missing_required_false in Hv.
  exists ((bson <$> updateData body now) ∪ doc).
  assert (Hset : ∀ k v, updateData body now !! k = Some v →
                   ((bson <$> updateData body now) ∪ doc) !! k = Some (bson v)).
  { intros k v Hk. apply lookup_union_Some_l. by rewrite lookup_fmap, Hk. }
  assert (Hkeep : ∀ k, updateData body now !! k = None →
                    ((bson <$> updateData body now) ∪ doc) !! k = doc !! k).
  { intros k Hk. apply lookup_union_r. by rewrite lookup_fmap, Hk. }
  split; [| split; [exact Hset | split; [exact Hkeep | split]]].
  - unfold PUT, updateOne. cbn. rewrite Hv, Hid. cbn. rewrite Hdb. cbn.
    apply lookup_insert_eq.
  - by apply Hkeep.
  - by apply Hset.
Qed.

Lemma PUT_keeps_other_fields_witness :
  new_ObjectId dave_id = Some dave_id
  ∧ ¬ lacks_required zero_amounts_body
  ∧ ∃ doc',
      (PUT (POST ledger (JsonObject valid_body) today dave_id).2 dave_id
           (JsonObject zero_amounts_body) (VString "2024-02-01T00:00:00.000Z")).2
      !! dave_id = Some doc'
      ∧ doc' !! "createdAt" = Some today
      ∧ doc' !! "updatedAt" = Some (VString "2024-02-01T00:00:00.000Z").
Proof.
  assert (H1 : new_ObjectId dave_id = Some dave_id) by reflexivity.
  assert (H2 : ¬ lacks_required zero_amounts_body).
  { apply missing_required_false. reflexivity. }
  split; [exact H1 |]. split; [exact H2 |].
  destruct (PUT_keeps_other_fields
              (POST ledger (JsonObject valid_body) today dave_id).2
              dave_id dave_id (bson <$> newEntry valid_body today)
              zero_amounts_body (VString "2024-02-01T00:00:00.000Z")
              H1 eq_refl H2) as (doc' & Hdoc' & _ & _ & Hc & Hu).
  exists doc'. split; [exact Hdoc' |]. split; [| exact Hu].
  rewrite Hc. reflexivity.
Defined.

(** *** The amounts that are stored *)

Lemma number_falsy_zero x :
  number_falsy x = true → PrimFloat.is_nan x = false → PrimFloat.is_zero x = true.
Proof. unfold number_falsy. intros H Hn. rewrite Hn in H. by rewrite orb_false_r in H. Qed.

Lemma written_number_or_0 (v : jsval) : written_amount (number_or_0 v).
Proof.
  unfold number_or_0, js_or. cbn [ToBoolean].
  destruct (number_falsy (Number v)) eqn:E; cbn [negb].
  - exists PrimFloat.zero. by repeat split.
  - exists (Number v). split; [done |]. split; [| by rewrite E].
    unfold number_falsy in E. by apply orb_false_iff in E as [_ ->].
Qed.

(** X7. [Number(v) || 0] is always a number, never [NaN] and never the
    negative zero; it is 0 for every falsy [v] (a blank input, a missing
    field, null, a zero, [NaN]), and a truthy number is kept as it is. *)
Theorem number_or_0_written (v : jsval) :
  written_amount (number_or_0 v)
  ∧ (falsy v → number_or_0 v = VNumber PrimFloat.zero)
  ∧ (∀ x, v = VNumber x → number_falsy x = false → number_or_0 v = v).
Proof.
  split; [apply written_number_or_0 |].
  unfold number_or_0, js_or. cbn [ToBoolean]. split.
  - intros [-> |[-> |[-> |[-> |(x & -> & Hx)]]]]; try reflexivity.
    cbn [Number ToNumber].
    assert (number_falsy x = true) as ->; [| done].
    unfold number_falsy, PrimFloat.is_zero, PrimFloat.is_nan.
    destruct Hx as [-> | ->]; [done | apply orb_true_r].
  - intros x -> Hx. cbn [Number ToNumber]. by rewrite Hx.
Qed.

Lemma number_or_0_written_witness :
  falsy (VString "")
  ∧ number_or_0 (VString "") = VNumber PrimFloat.zero
  ∧ number_or_0 (VNumber 40%float) = VNumber 40%float.
Proof.
  assert (H : falsy (VString "")) by (by do 3 right; left).
  split; [exact H |]. split.
  - exact (proj1 (proj2 (number_or_0_written (VString ""))) H).
  - exact (proj2 (proj2 (number_or_0_written (VNumber 40%float)))
             40%float eq_refl eq_refl).
Defined.

(** *** What the routes keep true of the collection *)

Lemma bson_written v : written_amount v → bson v = v.
Proof. by intros (x & -> & _). Qed.

Lemma ToBoolean_bson v : ToBoolean (bson v) = ToBoolean v.
Proof. by destruct v. Qed.

Lemma get_lookup (o : Fields) k v : o !! k = Some v → get o k = v.
Proof. unfold get. by intros ->. Qed.

Lemma amount_field_cases k :
  k ∈ amount_fields →
  k = "debitCountry" ∨ k = "debit" ∨ k = "creditCountry" ∨ k = "credit".
Proof.
  unfold amount_fields. rewrite !elem_of_cons, elem_of_nil. tauto.
Qed.

Lemma newEntry_amount body now k :
  k ∈ amount_fields → newEntry body now !! k = Some (number_or_0 (get body k)).
Proof. intros Hk. by destruct (amount_field_cases k Hk) as [-> |[-> |[-> | ->]]]. Qed.

Lemma updateData_amount body now k :
  k ∈ amount_fields → updateData body now !! k = Some (number_or_0 (get body k)).
Proof. intros Hk. by destruct (amount_field_cases k Hk) as [-> |[-> |[-> | ->]]]. Qed.

Lemma newEntry_well_formed body now :
  missing_required body = false → well_formed_entry (bson <$> newEntry body now).
Proof.
  intros Hm. split; [| split].
  - rewrite dom_fmap_L. reflexivity.
  - rewrite (get_lookup _ _ (bson (get body "particulars"))) by reflexivity.
    rewrite ToBoolean_bson. unfold missing_required in Hm.
    apply orb_false_iff in Hm as [Hm _]. by apply negb_false_iff in Hm.
  - intros k Hk.
    rewrite (get_lookup _ _ (bson (number_or_0 (get body k)))).
    + rewrite bson_written; apply written_number_or_0.
    + by rewrite lookup_fmap, newEntry_amount.
Qed.

Lemma updateData_well_formed body now doc :
  missing_required body = false → well_formed_entry doc →
  well_formed_entry ((bson <$> updateData body now) ∪ doc).
Proof.
  intros Hm (Hdom & _ & _). split; [| split].
  - rewrite dom_union_L, dom_fmap_L, Hdom. reflexivity.
  - rewrite (get_lookup _ _ (bson (get body "particulars"))).
    + rewrite ToBoolean_bson. unfold missing_required in Hm.
      apply orb_false_iff in Hm as [Hm _]. by apply negb_false_iff in Hm.
    + by apply lookup_union_Some_l.
  - intros k Hk.
    rewrite (get_lookup _ _ (bson (number_or_0 (get body k)))).
    + rewrite bson_written; apply written_number_or_0.
    + apply lookup_union_Some_l. by rewrite lookup_fmap, updateData_amount.
Qed.

Lemma serve_well_formed db r :
  well_formed_collection db → well_formed_collection (serve db r).2.
Proof.
  intros Hdb.
  destruct r as [request now insertedId | id request now | id]; cbn [serve].
  - destruct (POST_cases db request now insertedId)
      as [(body & _ & _ & ->)|[(body & _ & Hm & _ & _ & ->)| ->]]; try done.
    intros oid doc. rewrite lookup_insert.
    case_decide; [| apply Hdb]. intros [= <-]. by apply newEntry_well_formed.
  - destruct (PUT_cases db id request now)
      as [(body & _ & _ & ->)|[(body & oid & _ & _ & _ & _ & ->)
         |[(body & oid & doc & _ & Hm & _ & Hoid & ->)|[_ ->]]]]; try done.
    cbn [snd]. intros oid' doc'. rewrite lookup_insert.
    case_decide; [| apply Hdb]. intros [= <-].
    apply updateData_well_formed; [done |]. by apply (Hdb oid).
  - destruct (DELETE_cases db id)
      as [(oid & _ & _ & ->)|[(oid & doc & _ & _ & ->)|[_ ->]]]; try done.
    cbn [snd]. intros oid' doc'. rewrite lookup_delete.
    case_decide; [done | apply Hdb].
Qed.

Lemma replay_well_formed (rs : list Request) :
  well_formed_collection (replay ∅ rs).
Proof.
  unfold replay.
  assert (H : ∀ db, well_formed_collection db →
                well_formed_collection (fold_left (fun db r => (serve db r).2) rs db)).
  { induction rs as [|r rs IH]; intros db Hdb; [done |].
    cbn [fold_left]. apply IH. by apply serve_well_formed. }
  apply H. intros oid doc Hdoc. by rewrite lookup_empty in Hdoc.
Qed.

(** X8. Whatever requests the routes have served since the collection was
    empty, every stored entry has exactly the eight fields date,
    particulars, debitCountry, debit, creditCountry, credit, createdAt and
    updatedAt (so no balance and no stray field), a truthy particulars, and
    four amounts that are numbers other than [NaN] and the negative
    zero. *)
Theorem routes_keep_entries_well_formed (rs : list Request) :
  well_formed_collection (replay ∅ rs).
Proof.
  unfold replay.
  cut (∀ db, well_formed_collection db →
         well_formed_collection (fold_left (fun db r => (serve db r).2) rs db)).
  { intros H. apply H. intros oid doc Hdoc. by rewrite lookup_empty in Hdoc. }
  induction rs as [|r rs IH]; intros db Hdb; [done |].
  cbn [fold_left]. apply IH.
  destruct r as [request now insertedId | id request now | id];
    by apply (serve_well_formed db).
Qed.

(** *** More about GET *)

Lemma processed_other e rb k :
  k ≠ "id" → k ≠ "balance" → k ≠ "_id" → processed e rb !! k = fields e !! k.
Proof. intros. unfold processed. by rewrite !lookup_insert_ne. Qed.

(** X9. GET answers one entry for each stored entry, in the order it got
    them; each carries its id as a string, its balance, an undefined [_id],
    and every other stored field unchanged. *)
Theorem GET_keeps_entries (entries : list Document) :
  ∃ es, payload (GET entries) = Entries es
    ∧ length es = length entries
    ∧ ∀ i e, entries !! i = Some e →
        ∃ p, es !! i = Some p
          ∧ p !! "id" = Some (VString (_id e))
          ∧ p !! "_id" = Some VUndefined
          ∧ ∀ k, k ≠ "id" → k ≠ "balance" → k ≠ "_id" → p !! k = fields e !! k.
Proof.
  eexists. split; [reflexivity |]. split; [apply processEntries_length |].
  intros i e He. eexists. split; [by apply processEntries_lookup |].
  split; [unfold processed; by simplify_map_eq |].
  split; [unfold processed; by simplify_map_eq |].
  intros k. apply processed_other.
Qed.

Lemma GET_keeps_entries_witness :
  ∃ es, payload (GET [alice; bob]) = Entries es
    ∧ ∃ p, es !! 1%nat = Some p
        ∧ p !! "id" = Some (VString (_id bob))
        ∧ p !! "particulars" = Some (VString "Bob").
Proof.
  destruct (GET_keeps_entries [alice; bob]) as (es & Hes & _ & H).
  exists es. split; [exact Hes |].
  destruct (H 1%nat bob eq_refl) as (p & Hp & Hid & _ & Hk).
  exists p. split; [exact Hp |]. split; [exact Hid |].
  by rewrite Hk.
Defined.



(** X11. The balance of an entry depends on the entries up to it only:
    entries that come later in the sequence do not change it. *)
Theorem later_entries_do_not_matter (entries later : list Document) (i : nat) :
  (i < length entries)%nat →
  balance_at (GET (entries ++ later)) i = balance_at (GET entries) i.
Proof.
  intros Hi.
  destruct (lookup_lt_is_Some_2 entries i Hi) as [e He].
  rewrite (balance_at_GET entries i e He).
  rewrite (balance_at_GET (entries ++ later) i e)
    by by rewrite lookup_app_l.
  by rewrite take_app_le by lia.
Qed.

Lemma later_entries_witness :
  (0 < length [alice])%nat
  ∧ balance_at (GET ([alice] ++ [carol; bob])) 0 = Some (VNumber 100%float).
Proof.
  assert (H : (0 < length [alice])%nat) by repeat constructor.
  split; [exact H |].
  by rewrite (later_entries_do_not_matter [alice] [carol; bob] 0 H).
Defined.

(** *** GET over what the routes have written *)

Lemma well_formed_numeric oid doc :
  well_formed_entry doc → numeric_amounts {| _id := oid; fields := doc |} = true.
Proof.
  intros (_ & _ & Ha). unfold numeric_amounts. cbn [fields].
  destruct (Ha "credit") as (c & -> & _); [unfold amount_fields; set_solver |].
  destruct (Ha "debit") as (d & -> & _); [unfold amount_fields; set_solver |].
  done.
Qed.

(** X24. On entries that the routes have written, whatever the requests
    were, GET never meets a missing amount or a text in the place of an
    amount: the balance of every entry is the numeric fold of the credits
    and debits up to it. *)
Theorem balances_of_written_entries
    (rs : list Request) (entries : list Document) (i : nat) :
  (∀ e, e ∈ entries → replay ∅ rs !! _id e = Some (fields e)) →
  (i < length entries)%nat →
  balance_at (GET entries) i
  = Some (VNumber (running_balance (take (S i) entries)))
  ∧ ∀ e, e ∈ entries → ¬ missing_amount e.
Proof.
  intros Hin Hi.
  assert (Hwf : ∀ e, e ∈ entries → well_formed_entry (fields e)).
  { intros e He. by apply (replay_well_formed rs (_id e)), Hin. }
  assert (Hnum : forallb numeric_amounts entries = true).
  { apply forallb_forall. intros e He%list_elem_of_In.
    destruct e as [oid doc]. by apply well_formed_numeric, (Hwf _ He). }
  split.
  - destruct (lookup_lt_is_Some_2 entries i Hi) as [e He].
    rewrite (balance_at_GET _ _ _ He). unfold running_balance.
    by rewrite fold_next_balance_numeric by by apply forallb_take.
  - intros e He [Hm | Hm];
      destruct (Hwf e He) as (_ & _ & Ha).
    + destruct (Ha "credit") as (c & Hc & _); [unfold amount_fields; set_solver |].
      by rewrite Hm in Hc.
    + destruct (Ha "debit") as (d & Hd & _); [unfold amount_fields; set_solver |].
      by rewrite Hm in Hd.
Qed.

Lemma balances_of_written_entries_witness :
  ∃ rs e,
    (∀ e', e' ∈ [e] → replay ∅ rs !! _id e' = Some (fields e'))
    ∧ balance_at (GET [e]) 0 = Some (VNumber (-5)%float).
Proof.
  exists [Post (JsonObject valid_body) today dave_id],
         {| _id := dave_id; fields := bson <$> newEntry valid_body today |}.
  assert (H : ∀ e', e' ∈ [{| _id := dave_id;
                             fields := bson <$> newEntry valid_body today |}] →
                replay ∅ [Post (JsonObject valid_body) today dave_id] !! _id e'
                = Some (fields e')).
  { intros e' He'. apply list_elem_of_singleton in He' as ->. reflexivity. }
  split; [exact H |].
  refine (eq_trans (proj1 (balances_of_written_entries _ _ 0 H _)) _).
  - repeat constructor.
  - reflexivity.
Defined.

End ApiMore.

(** ** More about the ECMAScript fragment *)

Module ESMore.
Import ES ESFacts.

(** *** The text of a number is never empty and never the placeholder *)

Lemma pretty_N_go_nonempty (x : N) : ∀ s, s ≠ "" → pretty_N_go x s ≠ "".
Proof.
  induction (N.lt_wf_0 x) as [x _ IH]. intros s Hs.
  assert (x = 0 ∨ 0 < x)%N as [-> | Hx] by lia.
  - by rewrite pretty_N_go_0.
  - rewrite pretty_N_go_step by done. apply IH; [| done].
    apply N.div_lt; lia.
Qed.

Lemma pretty_N_nonempty (x : N) : pretty x ≠ "".
Proof.
  unfold pretty, pretty_N. case_decide as Hx; [done |].
  rewrite pretty_N_go_step by lia. by apply pretty_N_go_nonempty.
Qed.

Lemma pretty_N_not_dash (x : N) : pretty x ≠ "-".
Proof.
  unfold pretty, pretty_N. case_decide as Hx; [done |].
  by apply (pretty_N_go_ne_dash x "" "").
Qed.

Lemma pretty_Z_plain (z : Z) : pretty z ≠ "" ∧ pretty z ≠ "-".
Proof.
  destruct z as [|p|p]; unfold pretty, pretty_Z.
  - done.
  - split; [apply pretty_N_nonempty | apply pretty_N_not_dash].
  - split; [done |]. rewrite append_cons, append_nil_l.
    intros [= H]. by apply (pretty_N_nonempty (N.pos p)).
Qed.

(** A string with a character other than the dash in it. *)
Lemma has_other_char (a b : string) (c : ascii) :
  c ≠ "-"%char → a +:+ String c b ≠ "" ∧ a +:+ String c b ≠ "-".
Proof.
  intros Hc. destruct a as [|x a].
  - rewrite append_nil_l. split; [done |]. by intros [= -> _].
  - rewrite append_cons. split; [done |]. intros [= _ H]. by destruct a.
Qed.

Lemma plain_append (a b : string) :
  a ≠ "" → a ≠ "-" → a +:+ b ≠ "" ∧ a +:+ b ≠ "-".
Proof.
  intros Ha Hd. destruct a as [|x a]; [done |]. rewrite append_cons.
  split; [done |]. intros [= -> H]. destruct a; [done | discriminate H].
Qed.

Lemma format_digits_plain s n k :
  format_digits s n k ≠ "" ∧ format_digits s n k ≠ "-".
Proof.
  unfold format_digits. destruct (pretty_Z_plain s) as [H1 H2].
  repeat case_match; rewrite ?append_cons, ?append_nil_l;
    first [by apply plain_append | by apply has_other_char | by split].
Qed.

Lemma NumberToString_plain x : NumberToString x ≠ "" ∧ NumberToString x ≠ "-".
Proof.
  unfold NumberToString. destruct (Prim2SF x) as [| [] | | neg m e]; try done.
  destruct (exact_fraction m e) as [num den].
  destruct (shortest _ _ _ _ _ _) as [[s n'] k].
  destruct (format_digits_plain s n' k) as [H1 H2].
  destruct neg.
  - rewrite append_cons, append_nil_l. split; [done |]. by intros [= H].
  - by rewrite append_nil_l.
Qed.

End ESMore.

(** ** More about the statement component *)

Module StatementMore.
Import ES Statement ESFacts ESMore StatementFacts.

(** *** Case *)

Lemma lower_char_idemp c : lower_char (lower_char c) = lower_char c.
Proof. destruct c as [[] [] [] [] [] [] [] []]; reflexivity. Qed.

Lemma toLowerCase_idemp s : toLowerCase (toLowerCase s) = toLowerCase s.
Proof.
  induction s as [|c s IH]; [done |].
  cbn [toLowerCase]. by rewrite lower_char_idemp, IH.
Qed.

Lemma toLowerCase_empty s : toLowerCase s = "" ↔ s = "".
Proof. by destruct s. Qed.

Lemma eqb_empty_lower (q q' : string) :
  toLowerCase q' = toLowerCase q → String.eqb q' "" = String.eqb q "".
Proof.
  intros H. destruct q, q'; try done; discriminate H.
Qed.

Lemma satisfies_case f f' e :
  toLowerCase (filter_particulars f') = toLowerCase (filter_particulars f) →
  startDate f' = startDate f → endDate f' = endDate f →
  satisfies f' e = satisfies f e.
Proof.
  intros Hq Hs He.
  unfold satisfies, text_criterion, start_criterion, end_criterion.
  by rewrite (eqb_empty_lower _ _ Hq), Hq, Hs, He.
Qed.

(** X12. The search does not look at the case of the query: two queries
    that are the same once in lower case select the same entries, and so
    does a query and its lower-case form. *)
Theorem search_ignores_case_of_query (st : State) (q' : string) :
  (toLowerCase q' = toLowerCase (filter_particulars (exportFilters st)) →
   filteredEntries
     (handleSearch
        {| entries := entries st;
           exportFilters :=
             {| filter_particulars := q';
                startDate := startDate (exportFilters st);
                endDate := endDate (exportFilters st) |};
           filteredEntries := filteredEntries st |})
   = filteredEntries (handleSearch st))
  ∧ filteredEntries
      (handleSearch
         {| entries := entries st;
            exportFilters :=
              {| filter_particulars :=
                   toLowerCase (filter_particulars (exportFilters st));
                 startDate := startDate (exportFilters st);
                 endDate := endDate (exportFilters st) |};
            filteredEntries := filteredEntries st |})
    = filteredEntries (handleSearch st).
Proof.
  assert (H : ∀ q, toLowerCase q = toLowerCase (filter_particulars (exportFilters st)) →
    filteredEntries
      (handleSearch
         {| entries := entries st;
            exportFilters :=
              {| filter_particulars := q;
                 startDate := startDate (exportFilters st);
                 endDate := endDate (exportFilters st) |};
            filteredEntries := filteredEntries st |})
    = filteredEntries (handleSearch st)).
  { intros q Hq. rewrite !handleSearch_filter. cbn [entries exportFilters].
    apply filter_ext. intros e. by apply satisfies_case. }
  split; [apply H |]. apply H, toLowerCase_idemp.
Qed.

Lemma search_ignores_case_witness :
  toLowerCase "aLiCe" = toLowerCase "alice"
  ∧ filteredEntries
      (handleSearch
         {| entries := [alice; bob];
            exportFilters :=
              {| filter_particulars := "aLiCe"; startDate := ""; endDate := "" |};
            filteredEntries := [] |})
    = [alice].
Proof.
  assert (H : toLowerCase "aLiCe" = toLowerCase "alice") by reflexivity.
  split; [exact H |].
  refine (eq_trans
            (proj1 (search_ignores_case_of_query
                      {| entries := [alice; bob];
                         exportFilters :=
                           {| filter_particulars := "alice"; startDate := "";
                              endDate := "" |};
                         filteredEntries := [] |} "aLiCe") H) _).
  reflexivity.
Defined.

(** *** Date ranges *)

Lemma str_compare_antisym a : ∀ b, str_compare b a = CompOpp (str_compare a b).
Proof.
  induction a as [|x a IH]; intros [|y b]; cbn [str_compare]; try done.
  rewrite (Z.compare_antisym (code x) (code y)).
  destruct (code x ?= code y); cbn [CompOpp]; [apply IH | done | done].
Qed.

Lemma str_compare_not_Gt_trans a :
  ∀ b c, str_compare a b ≠ Gt → str_compare b c ≠ Gt → str_compare a c ≠ Gt.
Proof.
  induction a as [|x a IH]; intros [|y b] [|z c]; cbn [str_compare]; try done.
  destruct (Z.compare_spec (code x) (code y)) as [Hxy | Hxy | Hxy];
    destruct (Z.compare_spec (code y) (code z)) as [Hyz | Hyz | Hyz];
    destruct (Z.compare_spec (code x) (code z)) as [Hxz | Hxz | Hxz];
    try done; try lia.
  apply IH.
Qed.

Lemma filter_none {A} (f : A → bool) (l : list A) :
  (∀ x, x ∈ l → f x = false) → List.filter f l = [].
Proof.
  induction l as [|x l IH]; intros H; [done |].
  cbn. rewrite (H x) by left. apply IH. intros y Hy. apply H. by right.
Qed.

(** X13. When both dates are given and the start date is after the end
    date, no entry matches; both exports then contain every entry. *)
Theorem inverted_date_range (st : State) :
  startDate (exportFilters st) ≠ "" →
  endDate (exportFilters st) ≠ "" →
  str_compare (startDate (exportFilters st)) (endDate (exportFilters st)) = Gt →
  filteredEntries (handleSearch st) = []
  ∧ exportToCSV (handleSearch st) = csvContent (entries st)
  ∧ shareViaWhatsApp (handleSearch st) = shareMessage (entries st).
Proof.
  intros Hs He Hgt.
  assert (Hnone : filteredEntries (handleSearch st) = []).
  { rewrite handleSearch_filter. apply filter_none. intros e _.
    unfold satisfies, start_criterion, end_criterion.
    apply String.eqb_neq in Hs, He. rewrite Hs, He.
    destruct (str_ge (date e) (startDate (exportFilters st))) eqn:Hge;
      [| by rewrite andb_false_r].
    destruct (str_le (date e) (endDate (exportFilters st))) eqn:Hle;
      [| by rewrite andb_false_r].
    exfalso. unfold str_ge, str_le in *.
    apply (str_compare_not_Gt_trans (startDate (exportFilters st)) (date e)
             (endDate (exportFilters st))); [| | done].
    - rewrite str_compare_antisym.
      by destruct (str_compare (date e) (startDate (exportFilters st))).
    - by destruct (str_compare (date e) (endDate (exportFilters st))). }
  split; [done |].
  unfold exportToCSV, shareViaWhatsApp, dataToExport. by rewrite Hnone.
Qed.

Lemma inverted_date_range_witness :
  filteredEntries
    (handleSearch
       {| entries := [alice; bob];
          exportFilters :=
            {| filter_particulars := ""; startDate := "2024-02-01";
               endDate := "2024-01-01" |};
          filteredEntries := [] |}) = []
  ∧ exportToCSV
      (handleSearch
         {| entries := [alice; bob];
            exportFilters :=
              {| filter_particulars := ""; startDate := "2024-02-01";
                 endDate := "2024-01-01" |};
            filteredEntries := [] |}) = csvContent [alice; bob].
Proof.
  destruct (inverted_date_range
              {| entries := [alice; bob];
                 exportFilters :=
                   {| filter_particulars := ""; startDate := "2024-02-01";
                      endDate := "2024-01-01" |};
                 filteredEntries := [] |})
    as (H1 & H2 & _); [done | done | reflexivity |].
  split; [exact H1 | exact H2].
Defined.

(** *** What is exported *)

(** X14. After a search that matches at least one entry, both exports
    contain exactly the entries that satisfy the criteria, in the order of
    the statement. *)
Theorem export_after_search (st : State) :
  filteredEntries (handleSearch st) ≠ [] →
  exportToCSV (handleSearch st)
  = csvContent (List.filter (satisfies (exportFilters st)) (entries st))
  ∧ shareViaWhatsApp (handleSearch st)
    = shareMessage (List.filter (satisfies (exportFilters st)) (entries st)).
Proof.
  intros Hne. unfold exportToCSV, shareViaWhatsApp, dataToExport.
  rewrite <- handleSearch_filter.
  destruct (filteredEntries (handleSearch st)); [done |]. by cbn.
Qed.

Lemma export_after_search_witness :
  filteredEntries
    (handleSearch
       {| entries := [alice; bob];
          exportFilters :=
            {| filter_particulars := "bob"; startDate := ""; endDate := "" |};
          filteredEntries := [] |}) ≠ []
  ∧ exportToCSV
      (handleSearch
         {| entries := [alice; bob];
            exportFilters :=
              {| filter_particulars := "bob"; startDate := ""; endDate := "" |};
            filteredEntries := [] |})
    = csvContent [bob].
Proof.
  assert (H : filteredEntries
                (handleSearch
                   {| entries := [alice; bob];
                      exportFilters :=
                        {| filter_particulars := "bob"; startDate := "";
                           endDate := "" |};
                      filteredEntries := [] |}) ≠ []) by done.
  split; [exact H |].
  rewrite (proj1 (export_after_search _ H)). reflexivity.
Defined.

(** X15. The placeholder stands for a falsy amount only: an amount is
    shown as "-" exactly when it is falsy (or is itself the text "-"); in
    particular no number other than a zero and [NaN] is shown as "-". *)
Theorem placeholder_only_for_falsy (v : jsval) :
  (amount_cell v = "-" ↔ falsy v ∨ v = VString "-")
  ∧ (∀ x, v = VNumber x → number_falsy x = false → amount_cell v ≠ "-").
Proof.
  assert (H : amount_cell v = "-" ↔ falsy v ∨ v = VString "-").
  { split.
    - unfold amount_cell. destruct (ToBoolean v) eqn:E.
      + intros Hs. right. destruct v as [| |[]|x|s]; try done.
        * cbn [ToString] in Hs. by destruct (NumberToString_plain x).
        * cbn [ToString] in Hs. by rewrite Hs.
      + intros _. left. by apply ToBoolean_false.
    - intros [Hf | ->]; [by apply amount_cell_falsy | done]. }
  split; [exact H |].
  intros x -> Hx Hcell. apply H in Hcell as [Hf | Hs]; [| done].
  apply ToBoolean_false in Hf. cbn [ToBoolean] in Hf. by rewrite Hx in Hf.
Qed.

Lemma placeholder_only_for_falsy_witness :
  number_falsy 40%float = false ∧ amount_cell (VNumber 40%float) ≠ "-".
Proof.
  assert (H : number_falsy 40%float = false) by reflexivity.
  split; [exact H |].
  exact (proj2 (placeholder_only_for_falsy (VNumber 40%float)) 40%float eq_refl H).
Defined.

(** X16. With no entry in the statement, whatever the filters, a search
    finds nothing, the CSV text is the header line alone and the shared
    text is the title alone. *)
Theorem empty_statement_exports (st : State) :
  entries st = [] →
  filteredEntries (handleSearch st) = []
  ∧ exportToCSV (handleSearch st) = csv_header_line
  ∧ shareViaWhatsApp (handleSearch st) = share_title.
Proof.
  intros Hnil.
  assert (H : filteredEntries (handleSearch st) = []).
  { by rewrite handleSearch_filter, Hnil. }
  split; [done |].
  unfold exportToCSV, shareViaWhatsApp, dataToExport. rewrite H. cbn.
  by rewrite Hnil.
Qed.

Lemma empty_statement_witness :
  exportToCSV
    (handleSearch
       {| entries := [];
          exportFilters :=
            {| filter_particulars := "bob"; startDate := ""; endDate := "" |};
          filteredEntries := [alice] |}) = csv_header_line.
Proof.
  exact (proj1 (proj2 (empty_statement_exports
                         {| entries := [];
                            exportFilters :=
                              {| filter_particulars := "bob"; startDate := "";
                                 endDate := "" |};
                            filteredEntries := [alice] |} eq_refl))).
Defined.

(** X25. The CSV text does not quote or escape its fields: a comma in the
    particulars of an entry is not told apart from the comma between two
    fields, so two different entries can give the same record. *)
Theorem csv_fields_are_not_escaped (e : AccountEntry) (x y : string) :
  join ","
    (csv_row {| id := id e; date := date e;
                particulars := x +:+ "," +:+ y;
                debitCountry := debitCountry e; debit := debit e;
                creditCountry := creditCountry e; credit := credit e;
                balance := balance e |})
  = join ","
      (csv_row {| id := id e; date := date e +:+ "," +:+ x;
                  particulars := y;
                  debitCountry := debitCountry e; debit := debit e;
                  creditCountry := creditCountry e; credit := credit e;
                  balance := balance e |}).
Proof.
  rewrite !join_csv_row. unfold csv_line.
  cbn [String.concat date particulars debitCountry debit creditCountry credit
       balance].
  by rewrite !append_assoc.
Qed.

End StatementMore.

(** ** The entry form and the handlers *)

Module PageFacts.
Import ES Statement Page ESFacts ESMore StatementFacts.

(** *** The form against the routes *)

Lemma form_guard_is_route_guard (f : FormData) :
  ∃ body, form_request f = Api.JsonObject body
          ∧ Api.missing_required body = missing_fields f.
Proof. eexists. split; reflexivity. Qed.

Lemma POST_rejects db body now insertedId :
  Api.missing_required body = true →
  Api.POST db (Api.JsonObject body) now insertedId
  = (Api.respond 400 (Api.Error "Missing required fields"), db).
Proof. intros Hm. unfold Api.POST. cbn. by rewrite Hm. Qed.

Lemma PUT_rejects db id body now :
  Api.missing_required body = true →
  Api.PUT db id (Api.JsonObject body) now
  = (Api.respond 400 (Api.Error "Missing required fields"), db).
Proof. intros Hm. unfold Api.PUT. cbn. by rewrite Hm. Qed.

(** X17. The check that the two save handlers make on the form is the
    guard of the routes on the body that the form sends: POST and PUT
    answer 400 to a form request exactly when the handler would not have
    sent it. A request that a save handler sends is never answered 400. *)
Theorem form_check_is_route_guard
    (f : FormData) (db : Api.Collection) (now : jsval)
    (insertedId : Api.ObjectId) (id : string) :
  (Api.status (Api.POST db (form_request f) now insertedId).1 = 400
   ↔ missing_fields f = true)
  ∧ (Api.status (Api.PUT db id (form_request f) now).1 = 400
     ↔ missing_fields f = true).
Proof.
  destruct (form_guard_is_route_guard f) as (body & Hbody & Hguard).
  rewrite Hbody, <- Hguard. clear Hbody Hguard. split.
  - split; [| intros Hm; by rewrite POST_rejects].
    destruct (ApiFacts.POST_cases db (Api.JsonObject body) now insertedId)
      as [(b & [= <-] & Hm & _)|[(b & _ & _ & _ & Hs & _)| ->]];
      [done | by rewrite Hs | done].
  - split; [| intros Hm; by rewrite PUT_rejects].
    destruct (ApiFacts.PUT_cases db id (Api.JsonObject body) now)
      as [(b & [= <-] & Hm & _)|[(b & oid & _ & _ & _ & _ & ->)
         |[(b & oid & doc & _ & _ & _ & _ & ->)|[_ ->]]]]; done.
Qed.

(** *** Editing *)

Lemma truthy_NumberToString x : truthy (NumberToString x) = true.
Proof.
  unfold truthy. cbn [ToBoolean]. apply negb_true_iff, String.eqb_neq.
  apply NumberToString_plain.
Qed.

(** X18. Opening a stored entry in the edit form always gives a form that
    passes the check of the save handler, unless its particulars are
    empty: the amounts are shown by their text, which is never empty, so an
    entry whose debit and credit are both 0 can be saved again. *)
Theorem stored_entry_can_be_saved_again
    (p : Page) (e : AccountEntry) (dc d cc c : float) :
  debitCountry e = VNumber dc → debit e = VNumber d →
  creditCountry e = VNumber cc → credit e = VNumber c →
  ∃ p', startEdit p e = Some p'
    ∧ currentView p' = ViewEdit
    ∧ editingEntry p' = Some e
    ∧ form_particulars (formData p') = particulars e
    ∧ form_debit (formData p') = NumberToString d
    ∧ form_credit (formData p') = NumberToString c
    ∧ (missing_fields (formData p') = true ↔ particulars e = "").
Proof.
  intros Hdc Hd Hcc Hc. unfold startEdit. rewrite Hdc, Hd, Hcc, Hc. cbn.
  eexists. split; [reflexivity |]. repeat (split; [reflexivity |]).
  unfold missing_fields. cbn [formData form_particulars form_debit form_credit].
  rewrite !truthy_NumberToString. cbn [negb andb]. rewrite orb_false_r.
  unfold truthy. cbn [ToBoolean]. rewrite negb_involutive.
  apply String.eqb_eq.
Qed.

Lemma stored_entry_can_be_saved_again_witness :
  ∃ p', startEdit browsing bob = Some p'
    ∧ form_credit (formData p') = "0"
    ∧ missing_fields (formData p') = false.
Proof.
  destruct (stored_entry_can_be_saved_again browsing bob 0 40 0 0
              eq_refl eq_refl eq_refl eq_refl)
    as (p' & Hp' & _ & _ & _ & _ & Hc & Hm).
  exists p'. split; [exact Hp' |]. split.
  - rewrite Hc. reflexivity.
  - destruct (missing_fields (formData p')); [| done].
    by discriminate (proj1 Hm eq_refl).
Defined.

(** *** What the handlers do to the collection and to the export *)

Lemma fetchEntries_filtered p fetched :
  filteredEntries (lists (fetchEntries p fetched).1) = filteredEntries (lists p).
Proof. by destruct fetched. Qed.

Lemma dataToExport_filtered st st' :
  filteredEntries st' = filteredEntries st → filteredEntries st ≠ [] →
  dataToExport st' = dataToExport st.
Proof.
  intros H Hne. unfold dataToExport. rewrite H.
  by destruct (filteredEntries st).
Qed.

(** X19. Reloading the entries does not redo the search: as long as the
    last search result is not empty, the exports after [fetchEntries]
    (and so after an entry was added, updated or deleted) are the exports
    of before, whatever the new list of entries is. *)
Theorem refresh_keeps_search_result
    (p : Page) (db : Api.Collection) (confirmed : bool) (net : Network)
    (id : string) (fetched : option (list AccountEntry)) :
  filteredEntries (lists p) ≠ [] →
  exportToCSV (lists (fetchEntries p fetched).1) = exportToCSV (lists p)
  ∧ shareViaWhatsApp (lists (fetchEntries p fetched).1)
    = shareViaWhatsApp (lists p)
  ∧ exportToCSV
      (lists (handleDeleteEntry p db confirmed net id fetched).1.1)
    = exportToCSV (lists p).
Proof.
  intros Hne.
  assert (H : dataToExport (lists (fetchEntries p fetched).1)
              = dataToExport (lists p)).
  { apply dataToExport_filtered; [apply fetchEntries_filtered | done]. }
  unfold exportToCSV, shareViaWhatsApp. rewrite H.
  split; [done |]. split; [done |].
  unfold handleDeleteEntry.
  destruct confirmed, net; cbn [negb]; try done.
  destruct (Api.DELETE db id) as [response db'].
  destruct (Journal.ok response); [| done].
  destruct (fetchEntries p fetched) as [p' toasts]. cbn [fst] in *.
  by rewrite H.
Qed.

Lemma refresh_keeps_search_result_witness :
  filteredEntries
    (lists {| lists := no_match_query; loading := false; saving := false;
              currentView := ViewExport; editingEntry := None;
              formData := dave_form |}) ≠ []
  ∧ exportToCSV
      (lists (handleDeleteEntry
                {| lists := no_match_query; loading := false; saving := false;
                   currentView := ViewExport; editingEntry := None;
                   formData := dave_form |}
                Api.ledger true Answered (id alice) (Some [bob])).1.1)
    = csvContent [alice].
Proof.
  assert (H : filteredEntries
                (lists {| lists := no_match_query; loading := false;
                          saving := false; currentView := ViewExport;
                          editingEntry := None; formData := dave_form |}) ≠ [])
    by done.
  split; [exact H |].
  refine (eq_trans
            (proj2 (proj2 (refresh_keeps_search_result _ Api.ledger true Answered
                             (id alice) (Some [bob]) H))) _).
  reflexivity.
Defined.

(** X20. Adding an entry from a form that passes the check, when the
    answer of the server arrives and the generated id is free: the collection gains
    the entry under that id, with the date and the particulars of the form
    and with [Number(text) || 0] for each amount; the other entries stay;
    the handler reports success, resets the form, leaves the edit state and
    shows the statement with [saving] off. *)
Theorem add_entry_end_to_end
    (p : Page) (db : Api.Collection) (now : jsval)
    (insertedId : Api.ObjectId) (today : string)
    (fetched : option (list AccountEntry)) :
  missing_fields (formData p) = false →
  db !! insertedId = None →
  ∃ p' db' toasts doc,
    handleAddEntry p db Answered now insertedId today fetched
    = (p', db', success_toast "Entry added successfully" :: toasts)
    ∧ db' = <[insertedId := doc]> db
    ∧ doc !! "date" = Some (VString (form_date (formData p)))
    ∧ doc !! "particulars" = Some (VString (form_particulars (formData p)))
    ∧ doc !! "debit"
      = Some (Api.number_or_0 (VString (form_debit (formData p))))
    ∧ doc !! "credit"
      = Some (Api.number_or_0 (VString (form_credit (formData p))))
    ∧ currentView p' = ViewStatement
    ∧ editingEntry p' = None
    ∧ formData p' = blank_form today
    ∧ saving p' = false.
Proof.
  intros Hm Hdb. unfold handleAddEntry. rewrite Hm.
  unfold form_request. set (body := list_to_map _).
  assert (Hg : Api.missing_required body = false) by (by rewrite <- Hm).
  assert (Hdate : Api.newEntry body now !! "date"
                  = Some (VString (form_date (formData p)))) by reflexivity.
  assert (Hpart : Api.newEntry body now !! "particulars"
                  = Some (VString (form_particulars (formData p)))) by reflexivity.
  assert (Hdebit : Api.newEntry body now !! "debit"
                   = Some (Api.number_or_0 (VString (form_debit (formData p)))))
    by reflexivity.
  assert (Hcredit : Api.newEntry body now !! "credit"
                    = Some (Api.number_or_0 (VString (form_credit (formData p)))))
    by reflexivity.
  clearbody body.
  assert (Hb : ∀ v, Api.bson (Api.number_or_0 v) = Api.number_or_0 v).
  { intros v. by destruct (ApiFacts.number_or_0_number v) as (x & -> & _). }
  destruct (ApiFacts.POST_cases db (Api.JsonObject body) now insertedId)
    as [(b & [= <-] & Hmb & _)|[(b & [= <-] & _ & _ & Hs & Hdb')| H]].
  - congruence.
  - destruct (Api.POST db (Api.JsonObject body) now insertedId)
      as [response db']. cbn [fst snd] in Hs, Hdb'.
    unfold Journal.ok. rewrite Hs. cbn [Z.leb Z.compare Pos.compare
      Pos.compare_cont andb].
    destruct fetched as [data|]; cbn [fetchEntries];
      (do 4 eexists; split; [reflexivity |]; split; [exact Hdb' |]);
      rewrite !lookup_fmap, Hdate, Hpart, Hdebit, Hcredit; cbn [fmap option_fmap option_map];
      rewrite !Hb; by repeat split.
  - exfalso. unfold Api.POST, Api.insertOne in H. cbn in H.
    rewrite Hg in H. cbn in H.
    assert (Hdb2 : db !! insertedId = None) by exact Hdb.
    destruct (db !! insertedId); [done |]. cbn in H. by injection H.
Qed.

Lemma add_entry_witness :
  missing_fields (formData adding) = false
  ∧ Api.ledger !! Api.dave_id = None
  ∧ ∃ p' db' toasts,
      handleAddEntry adding Api.ledger Answered Api.today Api.dave_id "2024-01-05"
                     (Some [alice; bob])
      = (p', db', success_toast "Entry added successfully" :: toasts)
      ∧ currentView p' = ViewStatement.
Proof.
  assert (H1 : missing_fields (formData adding) = false) by reflexivity.
  assert (H2 : Api.ledger !! Api.dave_id = None) by reflexivity.
  split; [exact H1 |]. split; [exact H2 |].
  destruct (add_entry_end_to_end adding Api.ledger Api.today Api.dave_id
              "2024-01-05" (Some [alice; bob]) H1 H2)
    as (p' & db' & toasts & doc & Hr & _ & _ & _ & _ & _ & Hv & _).
  exists p', db', toasts. split; [exact Hr | exact Hv].
Defined.

(** X21. Saving the edit form for an entry that is stored, when the form
    passes the check and the answer of the server arrives: the stored entry takes the
    date and the particulars of the form and [Number(text) || 0] for its
    debit and credit, keeps its [createdAt], and the other entries stay;
    the handler reports success and shows the statement with a blank
    form. *)
Theorem edit_entry_end_to_end
    (p : Page) (e : AccountEntry) (db : Api.Collection) (oid : Api.ObjectId)
    (stored : Api.Fields) (now : jsval) (today : string)
    (fetched : option (list AccountEntry)) :
  editingEntry p = Some e →
  missing_fields (formData p) = false →
  Api.new_ObjectId (id e) = Some oid →
  db !! oid = Some stored →
  ∃ p' toasts doc,
    handleEditEntry p db Answered now today fetched
    = (p', <[oid := doc]> db,
       success_toast "Entry updated successfully" :: toasts)
    ∧ doc !! "date" = Some (VString (form_date (formData p)))
    ∧ doc !! "particulars" = Some (VString (form_particulars (formData p)))
    ∧ doc !! "debit"
      = Some (Api.number_or_0 (VString (form_debit (formData p))))
    ∧ doc !! "credit"
      = Some (Api.number_or_0 (VString (form_credit (formData p))))
    ∧ doc !! "createdAt" = stored !! "createdAt"
    ∧ currentView p' = ViewStatement
    ∧ editingEntry p' = None
    ∧ formData p' = blank_form today
    ∧ saving p' = false.
Proof.
  intros He Hm Hid Hdb. unfold handleEditEntry. rewrite He, Hm.
  unfold form_request. set (body := list_to_map _).
  assert (Hg : Api.missing_required body = false) by (by rewrite <- Hm).
  assert (Hdate : Api.updateData body now !! "date"
                  = Some (VString (form_date (formData p)))) by reflexivity.
  assert (Hpart : Api.updateData body now !! "particulars"
                  = Some (VString (form_particulars (formData p)))) by reflexivity.
  assert (Hdebit : Api.updateData body now !! "debit"
                   = Some (Api.number_or_0 (VString (form_debit (formData p)))))
    by reflexivity.
  assert (Hcredit : Api.updateData body now !! "credit"
                    = Some (Api.number_or_0 (VString (form_credit (formData p)))))
    by reflexivity.
  assert (Hcreated : Api.updateData body now !! "createdAt" = None) by reflexivity.
  clearbody body.
  assert (Hb : ∀ v, Api.bson (Api.number_or_0 v) = Api.number_or_0 v).
  { intros v. by destruct (ApiFacts.number_or_0_number v) as (x & -> & _). }
  assert (HP : Api.PUT db (id e) (Api.JsonObject body) now
               = (Api.respond 200 (Api.Message "Entry updated successfully"),
                  <[oid := (Api.bson <$> Api.updateData body now) ∪ stored]> db)).
  { unfold Api.PUT, Api.updateOne. cbn. rewrite Hg, Hid. cbn.
    assert (Hdb2 : db !! oid = Some stored) by exact Hdb.
    destruct (db !! oid) as [d|]; [| done]. by injection Hdb2 as ->. }
  rewrite HP. cbn [Journal.ok Api.status Api.respond Z.leb Z.compare
    Pos.compare Pos.compare_cont andb].
  assert (Hset : ∀ k v, Api.updateData body now !! k = Some v →
            ((Api.bson <$> Api.updateData body now) ∪ stored) !! k
            = Some (Api.bson v)).
  { intros k v Hk. apply lookup_union_Some_l. by rewrite lookup_fmap, Hk. }
  destruct fetched as [data|]; cbn [fetchEntries];
    (do 3 eexists; split; [reflexivity |]);
    rewrite (Hset _ _ Hdate), (Hset _ _ Hpart), (Hset _ _ Hdebit),
      (Hset _ _ Hcredit), !Hb;
    (repeat split);
    apply lookup_union_r; by rewrite lookup_fmap, Hcreated.
Qed.

Lemma edit_entry_witness :
  ∃ p, startEdit browsing bob = Some p
    ∧ missing_fields (formData p) = false
    ∧ Api.new_ObjectId (id bob) = Some (Api._id Api.bob)
    ∧ ∃ p' db' toasts,
        handleEditEntry p Api.ledger Answered Api.today "2024-01-05" None
        = (p', db', success_toast "Entry updated successfully" :: toasts)
        ∧ currentView p' = ViewStatement.
Proof.
  eexists. split; [reflexivity |].
  split; [reflexivity |]. split; [reflexivity |].
  edestruct (edit_entry_end_to_end) as (p' & toasts & doc & Hr & H);
    [ | | | | exists p'; eexists; exists toasts; split; [exact Hr |];
              exact (proj1 (proj2 (proj2 (proj2 (proj2 (proj2 H)))))) ];
    reflexivity.
Defined.



(** When the answer is lost: the entry is stored and the handler reports
    that adding it failed, with the form kept for another attempt. *)
Example lost_answer_of_an_add :
  handleAddEntry adding Api.ledger AnswerLost Api.today Api.dave_id
                 "2024-01-05" None
  = (adding,
     <[Api.dave_id := Api.bson <$> Api.newEntry
                        (list_to_map
                           [ ("date", VString "2024-01-04");
                             ("particulars", VString "Dave");
                             ("debitCountry", VString "");
                             ("debit", VString "5");
                             ("creditCountry", VString "");
                             ("credit", VString "") ]) Api.today]> Api.ledger,
     [error_toast "Failed to add entry"]).
Proof. vm_compute. reflexivity. Qed.

(** X23. Opening an entry in the edit form fails exactly when one of its
    four amounts is undefined or null. *)
Theorem startEdit_fails_iff (p : Page) (e : AccountEntry) :
  let absent (v : jsval) := v = VUndefined ∨ v = VNull in
  startEdit p e = None
  ↔ absent (debitCountry e) ∨ absent (debit e)
    ∨ absent (creditCountry e) ∨ absent (credit e).
Proof.
  cbn zeta. unfold startEdit.
  destruct (debitCountry e), (debit e), (creditCountry e), (credit e);
    cbn; split; intros H; try done; try tauto;
    (by left; (left + right)) || (by right; left; (left + right))
    || (by right; right; left; (left + right))
    || (by right; right; right; (left + right))
    || (destruct H as [[H|H]|[[H|H]|[[H|H]|[H|H]]]]; discriminate H).
Qed.

End PageFacts.
